(** * Shallow embedding of gh-parametric-toolkit

    The three Grasshopper generators of the toolkit:
    - [tools/facade_panelizer/src/panelizer.py]   (generate_panel_ids, panelize_surface)
    - [tools/src/adaptive_fenestration.py]        (normalize_data, bin_into_categories,
                                                  calculate_opening_scale,
                                                  create_fenestrated_panel,
                                                  adaptive_fenestration)
    - [tools/src/tower_twister.py]                (twist_tower)

    RhinoCommon (the geometry kernel) is external to the repository; its
    operations appear as section variables, except the affine transforms
    [Transform.Identity], [Transform.Translation], [Transform.Rotation],
    [Transform.Scale], [Transform.PlaneToPlane] and the product [*] of
    transforms, which are written out as matrices over [R] with RhinoCommon's
    column-vector convention ([(a * b) p = a (b p)]).

    Python numbers of the data pipeline are modelled as rationals [Q];
    Python values whose type changes at run time (the result of
    [normalize_data]) as the small dynamic type [PyVal]. *)

From Stdlib Require Import List Arith Lia ZArith QArith Qround Reals Lra Lqa Psatz.
From Stdlib Require Import String Ascii DecimalString DecimalNat DecimalFacts Qreals.
Import ListNotations.
Set Warnings "-register-all".
Open Scope nat_scope.

(** ** Python exceptions and results *)

Inductive Exc : Type :=
| ValueError (msg : string)
| TypeError (msg : string)
| RuntimeError (msg : string)
| AttributeError (msg : string)
| IndexError (msg : string).

Inductive Result (A : Type) : Type :=
| Ok (a : A)
| Err (e : Exc).
Arguments Ok {A} a.
Arguments Err {A} e.

Definition is_value_error {A} (r : Result A) : bool :=
  match r with Err (ValueError _) => true | _ => false end.

(** ** Python string formatting of ints *)

Module Fmt.

(** [str(n)] for a non-negative int. *)
Definition str_nat (n : nat) : string :=
  NilEmpty.string_of_uint (Nat.to_uint n).

(** [format(n, "02d")] for a non-negative int: zero-filled to width 2. *)
Definition fmt02 (n : nat) : string :=
  let s := str_nat n in
  String.append (string_of_list_ascii (repeat "0"%char (2 - String.length s))) s.

(** Reading a run of decimal digits back. *)
Definition read_nat (s : string) : option nat :=
  option_map Nat.of_uint (NilEmpty.uint_of_string s).

End Fmt.

(** ** GridPanelizer: [panelizer.py] *)

Module Panelizer.
Import Fmt.

(** [f"{prefix}-{u:02d}-{v:02d}"] *)
Definition panel_id (prefix : string) (u v : nat) : string :=
  (prefix ++ "-" ++ fmt02 u ++ "-" ++ fmt02 v)%string.

(** [range(1, n + 1)] *)
Definition range1 (n : Z) : list nat := seq 1 (Z.to_nat n).

Definition generate_panel_ids (u_count v_count : Z) (prefix : string)
  : Result (list string) :=
  if (u_count <=? 0)%Z || (v_count <=? 0)%Z then
    Err (ValueError "U and V counts must be > 0.")
  else
    Ok (flat_map (fun v => map (fun u => panel_id prefix u v) (range1 u_count))
                 (range1 v_count)).

End Panelizer.

(** ** RhinoCommon points and affine transforms *)

Module Xform.
Local Open Scope R_scope.

Record Point3d : Type := mkPoint { px : R; py : R; pz : R }.

(** [rg.Plane]: origin and the three axis vectors. *)
Record Plane : Type := mkPlane
  { Origin : Point3d; XAxis : Point3d; YAxis : Point3d; ZAxis : Point3d }.

Definition Vector3d_ZAxis : Point3d := mkPoint 0 0 1.

Definition Plane_WorldXY : Plane :=
  mkPlane (mkPoint 0 0 0) (mkPoint 1 0 0) (mkPoint 0 1 0) (mkPoint 0 0 1).

(** [rg.Transform] restricted to affine maps: the top three rows of the
    4x4 matrix (the bottom row of every transform built here is [0 0 0 1]). *)
Record Transform : Type := mkT
  { m00 : R; m01 : R; m02 : R; m03 : R;
    m10 : R; m11 : R; m12 : R; m13 : R;
    m20 : R; m21 : R; m22 : R; m23 : R }.

(** Transforming a point: [M * (x, y, z, 1)]. *)
Definition apply (t : Transform) (p : Point3d) : Point3d :=
  mkPoint (m00 t * px p + m01 t * py p + m02 t * pz p + m03 t)
          (m10 t * px p + m11 t * py p + m12 t * pz p + m13 t)
          (m20 t * px p + m21 t * py p + m22 t * pz p + m23 t).

(** [a * b]: matrix product; applying it applies [b] first, then [a]. *)
Definition mul (a b : Transform) : Transform :=
  mkT (m00 a * m00 b + m01 a * m10 b + m02 a * m20 b)
      (m00 a * m01 b + m01 a * m11 b + m02 a * m21 b)
      (m00 a * m02 b + m01 a * m12 b + m02 a * m22 b)
      (m00 a * m03 b + m01 a * m13 b + m02 a * m23 b + m03 a)
      (m10 a * m00 b + m11 a * m10 b + m12 a * m20 b)
      (m10 a * m01 b + m11 a * m11 b + m12 a * m21 b)
      (m10 a * m02 b + m11 a * m12 b + m12 a * m22 b)
      (m10 a * m03 b + m11 a * m13 b + m12 a * m23 b + m13 a)
      (m20 a * m00 b + m21 a * m10 b + m22 a * m20 b)
      (m20 a * m01 b + m21 a * m11 b + m22 a * m21 b)
      (m20 a * m02 b + m21 a * m12 b + m22 a * m22 b)
      (m20 a * m03 b + m21 a * m13 b + m22 a * m23 b + m23 a).

(** [rg.Transform.Identity] *)
Definition Identity : Transform := mkT 1 0 0 0  0 1 0 0  0 0 1 0.

(** [rg.Transform.Translation(dx, dy, dz)] *)
Definition Translation (dx dy dz : R) : Transform :=
  mkT 1 0 0 dx  0 1 0 dy  0 0 1 dz.

(** [rg.Transform.Rotation(angle, axis, center)] for a unit [axis]
    (Rodrigues' formula [R = cos I + sin [a]x + (1 - cos) a a^T], followed by
    the translation [center - R center]); the only axis used by the toolkit,
    [Vector3d.ZAxis], has unit length. *)
Definition Rotation (angle : R) (a c : Point3d) : Transform :=
  let co := cos angle in
  let si := sin angle in
  let t := 1 - co in
  let r00 := co + t * px a * px a in
  let r01 := t * px a * py a - si * pz a in
  let r02 := t * px a * pz a + si * py a in
  let r10 := t * py a * px a + si * pz a in
  let r11 := co + t * py a * py a in
  let r12 := t * py a * pz a - si * px a in
  let r20 := t * pz a * px a - si * py a in
  let r21 := t * pz a * py a + si * px a in
  let r22 := co + t * pz a * pz a in
  mkT r00 r01 r02 (px c - (r00 * px c + r01 * py c + r02 * pz c))
      r10 r11 r12 (py c - (r10 * px c + r11 * py c + r12 * pz c))
      r20 r21 r22 (pz c - (r20 * px c + r21 * py c + r22 * pz c)).

(** [rg.Transform.Scale(rg.Plane.WorldXY, sx, sy, sz)] *)
Definition Scale_WorldXY (sx sy sz : R) : Transform :=
  mkT sx 0 0 0  0 sy 0 0  0 0 sz 0.

(** [rg.Transform.PlaneToPlane(rg.Plane.WorldXY, b)]: the world axes go to
    the axes of [b], the world origin to its origin. *)
Definition PlaneToPlane_WorldXY (b : Plane) : Transform :=
  mkT (px (XAxis b)) (px (YAxis b)) (px (ZAxis b)) (px (Origin b))
      (py (XAxis b)) (py (YAxis b)) (py (ZAxis b)) (py (Origin b))
      (pz (XAxis b)) (pz (YAxis b)) (pz (ZAxis b)) (pz (Origin b)).

(** [v * s] for a vector. *)
Definition vscale (v : Point3d) (s : R) : Point3d :=
  mkPoint (px v * s) (py v * s) (pz v * s).

End Xform.

(** ** The geometry kernel (RhinoCommon), as an interface *)

Import Xform.

(** Every RhinoCommon object the generators touch is a [Geom]; the
    [isinstance] tests, queries and constructors the code calls are the
    fields of [Kernel]. Constructors return a new value; the only in-place
    operation, [GeometryBase.Transform], is [transform]. *)
Class Kernel : Type := {
  Geom : Type;
  is_surface : Geom -> bool;            (* isinstance(g, rg.Surface) *)
  is_brep_face : Geom -> bool;          (* isinstance(g, rg.BrepFace) *)
  is_brep : Geom -> bool;               (* isinstance(g, rg.Brep) *)
  underlying_surface : Geom -> Geom;    (* BrepFace.UnderlyingSurface() *)
  brep_faces : Geom -> list Geom;       (* Brep.Faces *)
  domain : Geom -> nat -> R * R;        (* Surface.Domain(d) as (T0, T1) *)
  point_at : Geom -> R -> R -> Point3d; (* Surface.PointAt(u, v) *)
  frame_at : Geom -> R -> R -> option Plane;  (* Surface.FrameAt(u, v) *)
  create_from_corners :                 (* NurbsSurface.CreateFromCorners *)
    Point3d -> Point3d -> Point3d -> Point3d -> option Geom;
  is_closed : Geom -> bool;             (* Curve.IsClosed *)
  bbox_center : Geom -> Point3d;        (* GetBoundingBox(True).Center *)
  transform : Transform -> Geom -> Geom;  (* GeometryBase.Transform(x) *)
  to_brep : Geom -> Geom;               (* Surface.ToBrep() *)
  create_extrusion : Geom -> Point3d -> option Geom;  (* Surface.CreateExtrusion *)
  boolean_difference : list Geom -> list Geom -> Q -> list Geom;
                                        (* Brep.CreateBooleanDifference; [] for None *)
  area : Geom -> option Q;              (* AreaMassProperties.Compute(g), None for null *)
  create_from_loft : list Geom -> list Geom
                                        (* Brep.CreateFromLoft(curves, Unset, Unset,
                                           LoftType.Normal, False); [] for None *)
}.

(** [Interval.ParameterAt(t)] and [Interval.Mid] *)
Definition ParameterAt (d : R * R) (t : R) : R := ((1 - t) * fst d + t * snd d)%R.
Definition Mid (d : R * R) : R := ((fst d + snd d) / 2)%R.

(** ** Object store and the generators' monad

    Python objects live in a store; a reference is an index into it.
    Allocation appends, so the objects that exist before a call keep their
    indices. A computation threads the store and may raise. *)

Module Heap.
Section Heap.
Context {K : Kernel}.

Definition heap : Type := list Geom.
Definition ref : Type := nat.

Definition M (A : Type) : Type := heap -> Result A * heap.

Definition ret {A} (a : A) : M A := fun h => (Ok a, h).
Definition raise {A} (e : Exc) : M A := fun h => (Err e, h).
Definition bind {A B} (m : M A) (k : A -> M B) : M B :=
  fun h => match m h with
           | (Ok a, h') => k a h'
           | (Err e, h') => (Err e, h')
           end.

(** Lifting a pure, possibly raising, computation. *)
Definition lift {A} (r : Result A) : M A := fun h => (r, h).

(** Dereferencing; a reference obtained from the store never dangles, the
    error only makes the function total. *)
Definition load (r : ref) : M Geom :=
  fun h => match nth_error h r with
           | Some g => (Ok g, h)
           | None => (Err (RuntimeError "dangling reference"), h)
           end.

Definition alloc (g : Geom) : M ref := fun h => (Ok (List.length h), List.app h [g]).

Fixpoint set_nth (h : heap) (r : nat) (g : Geom) : heap :=
  match h, r with
  | [], _ => []
  | _ :: t, O => g :: t
  | x :: t, S r' => x :: set_nth t r' g
  end.

(** [obj.Transform(x)]: in-place update of the object at [r]. *)
Definition transform_in_place (r : ref) (x : Transform) : M unit :=
  fun h => match nth_error h r with
           | Some g => (Ok tt, set_nth h r (transform x g))
           | None => (Err (RuntimeError "dangling reference"), h)
           end.

End Heap.

Module Notations.
Notation "x <- m ;; k" := (bind m (fun x => k))
  (at level 61, m at next level, right associativity).
Notation "m ;;; k" := (bind m (fun _ => k))
  (at level 61, right associativity).
End Notations.
End Heap.

(** Monadic map in [Result]. *)
Fixpoint mapR {A B} (f : A -> Result B) (l : list A) : Result (list B) :=
  match l with
  | [] => Ok []
  | x :: t => match f x with
              | Err e => Err e
              | Ok y => match mapR f t with
                        | Err e => Err e
                        | Ok ys => Ok (y :: ys)
                        end
              end
  end.

(** ** GridPanelizer: [panelize_surface] *)

Module Panelize.
Import Fmt Panelizer.
Section Panelize.
Context {K : Kernel}.

(** The surface-coercion chain of [panelize_surface]. *)
Definition coerce_surface (surface_input : Geom) : Result Geom :=
  if is_surface surface_input then Ok surface_input
  else if is_brep_face surface_input then Ok (underlying_surface surface_input)
  else if is_brep surface_input then
    match brep_faces surface_input with
    | [] => Err (ValueError "Brep has no faces.")
    | f :: _ => Ok (underlying_surface f)
    end
  else Err (TypeError "Unsupported type for surface_input").

(** [[dom.ParameterAt(i / float(n)) for i in range(n + 1)]] *)
Definition params (dom : R * R) (n : Z) : list R :=
  map (fun i => ParameterAt dom (INR i / IZR n)%R) (seq 0 (S (Z.to_nat n))).

(** The UV cells in loop order: [for j in range(v_count): for i in range(u_count)]. *)
Definition cells (u_count v_count : Z) : list (nat * nat) :=
  flat_map (fun j => map (fun i => (i, j)) (seq 0 (Z.to_nat u_count)))
           (seq 0 (Z.to_nat v_count)).

(** One loop iteration: the four corners of cell [(i, j)] and its patch. *)
Definition make_panel (srf : Geom) (u_params v_params : list R) (c : nat * nat)
  : Result Geom :=
  let (i, j) := c in
  let u0 := nth i u_params 0%R in
  let u1 := nth (S i) u_params 0%R in
  let v0 := nth j v_params 0%R in
  let v1 := nth (S j) v_params 0%R in
  let p00 := point_at srf u0 v0 in
  let p10 := point_at srf u1 v0 in
  let p11 := point_at srf u1 v1 in
  let p01 := point_at srf u0 v1 in
  match create_from_corners p00 p10 p11 p01 with
  | None => Err (RuntimeError ("Failed to create panel at (u=" ++ str_nat (S i)
                               ++ ", v=" ++ str_nat (S j) ++ ")."))
  | Some patch => Ok patch
  end.

(** [panelize_surface(surface_input, u_count, v_count, prefix)]; [None]
    is Python's [None]. *)
Definition panelize_surface (surface_input : option Geom) (u_count v_count : Z)
    (prefix : string) : Result (list Geom * list string) :=
  match surface_input with
  | None => Err (ValueError "Surface input is None. Connect a Surface (or single-face Brep).")
  | Some si =>
    if (u_count <=? 0)%Z || (v_count <=? 0)%Z then
      Err (ValueError "U and V counts must be > 0.")
    else
      match coerce_surface si with
      | Err e => Err e
      | Ok srf =>
        let u_params := params (domain srf 0) u_count in
        let v_params := params (domain srf 1) v_count in
        match generate_panel_ids u_count v_count prefix with
        | Err e => Err e
        | Ok ids =>
          match mapR (make_panel srf u_params v_params) (cells u_count v_count) with
          | Err e => Err e
          | Ok panels => Ok (panels, ids)
          end
        end
      end
  end.

End Panelize.
End Panelize.

(** ** FenestrationSynthesizer: the data pipeline *)

Module Data.
Local Open Scope Q_scope.

(** Python's [<] on numbers. *)
Definition Qlt_bool (x y : Q) : bool := negb (Qle_bool y x).

(** The Python values that flow through the pipeline. *)
Inductive PyVal : Type :=
| PInt (z : Z)
| PFloat (q : Q)
| PList (l : list PyVal)
| PTuple (l : list PyVal).

(** [min(xs)] and [max(xs)]: the first least (greatest) element. *)
Definition py_min (xs : list Q) : Result Q :=
  match xs with
  | [] => Err (ValueError "min() arg is an empty sequence")
  | x :: t => Ok (fold_left (fun m y => if Qlt_bool y m then y else m) t x)
  end.

Definition py_max (xs : list Q) : Result Q :=
  match xs with
  | [] => Err (ValueError "max() arg is an empty sequence")
  | x :: t => Ok (fold_left (fun m y => if Qlt_bool m y then y else m) t x)
  end.

(** [a * b] *)
Definition py_mul (a b : PyVal) : Result PyVal :=
  match a, b with
  | PInt x, PInt y => Ok (PInt (x * y))
  | PInt x, PFloat y => Ok (PFloat (inject_Z x * y))
  | PFloat x, PInt y => Ok (PFloat (x * inject_Z y))
  | PFloat x, PFloat y => Ok (PFloat (x * y))
  | PList l, PInt k | PInt k, PList l => Ok (PList (List.concat (repeat l (Z.to_nat k))))
  | PTuple l, PInt k | PInt k, PTuple l => Ok (PTuple (List.concat (repeat l (Z.to_nat k))))
  | _, _ => Err (TypeError "unsupported operand type(s) for *")
  end.

(** [int(x)]: truncation toward zero for a float. *)
Definition py_int (x : PyVal) : Result Z :=
  match x with
  | PInt z => Ok z
  | PFloat q => Ok (Z.quot (Qnum q) (Zpos (Qden q)))
  | _ => Err (TypeError "int() argument must be a string, a bytes-like object or a real number")
  end.

(** A number operand of float arithmetic. *)
Definition py_num (x : PyVal) : Result Q :=
  match x with
  | PInt z => Ok (inject_Z z)
  | PFloat q => Ok q
  | _ => Err (TypeError "unsupported operand type(s)")
  end.

(** [for x in v] *)
Definition py_iter (v : PyVal) : Result (list PyVal) :=
  match v with
  | PList l | PTuple l => Ok l
  | _ => Err (TypeError "object is not iterable")
  end.

(** [v[i]] *)
Definition py_getitem (v : PyVal) (i : nat) : Result PyVal :=
  match v with
  | PList l | PTuple l =>
    match nth_error l i with
    | Some x => Ok x
    | None => Err (IndexError "index out of range")
    end
  | _ => Err (TypeError "object is not subscriptable")
  end.

Definition normalize_data (data_values : list Q) : Result PyVal :=
  match py_min data_values, py_max data_values with
  | Err e, _ | _, Err e => Err e
  | Ok min_val, Ok max_val =>
    if Qeq_bool max_val min_val then
      Ok (PTuple [PList (repeat (PFloat (1 # 2)) (List.length data_values));
                  PList (repeat (PInt 5) (List.length data_values))])
    else
      Ok (PList (map (fun val => PFloat ((val - min_val) / (max_val - min_val)))
                     data_values))
  end.

Definition bin_into_categories (normalized_values : PyVal) (num_categories : Z)
  : Result (list Z) :=
  match py_iter normalized_values with
  | Err e => Err e
  | Ok vs =>
    mapR (fun norm =>
            match py_mul norm (PInt num_categories) with
            | Err e => Err e
            | Ok x => match py_int x with
                      | Err e => Err e
                      | Ok c => Ok (Z.min c (num_categories - 1))
                      end
            end) vs
  end.

Definition calculate_opening_scale (normalized_value min_scale max_scale : Q)
    (invert : bool) : Q :=
  if invert then max_scale - normalized_value * (max_scale - min_scale)
  else min_scale + normalized_value * (max_scale - min_scale).

End Data.

(** ** FenestrationSynthesizer: panels *)

Module Fenestration.
Import Data Heap Heap.Notations.
Local Open Scope Q_scope.
Section Fenestration.
Context {K : Kernel}.

(** The [fenestration_info] dict; the last three keys are added by
    [adaptive_fenestration] after the call. *)
Record FenInfo : Type := mkInfo {
  id : string;
  opening_scale : Q;
  opening_area : Q;
  opening_percent : Q;
  panel_area : Q;
  category : option Z;
  data_value : option Q;
  normalized_value : option PyVal }.

(** [rg.AreaMassProperties.Compute(g).Area]; reading [.Area] of [None]
    raises. *)
Definition area_of (g : Geom) : M Q :=
  match area g with
  | Some a => ret a
  | None => raise (AttributeError "'NoneType' object has no attribute 'Area'")
  end.

Definition create_fenestrated_panel (panel opening_shape : ref) (scale_factor : Q)
    (panel_id : string) : M (ref * FenInfo) :=
  if Qeq_bool scale_factor 0 then
    pg <- load panel ;;
    panel_area <- area_of pg ;;
    ret (panel, mkInfo panel_id 0 0 0 panel_area None None None)
  else
    pg <- load panel ;;
    let u_mid := Mid (domain pg 0) in
    let v_mid := Mid (domain pg 1) in
    frame <- match frame_at pg u_mid v_mid with
             | Some f => ret f
             | None => raise (RuntimeError ("Failed to get frame for panel " ++ panel_id))
             end ;;
    let xf := PlaneToPlane_WorldXY frame in
    let scale_transform := Scale_WorldXY (Q2R scale_factor) (Q2R scale_factor) 1 in
    shape <- load opening_shape ;;
    opening_curve <- alloc shape ;;
    transform_in_place opening_curve scale_transform ;;;
    transform_in_place opening_curve xf ;;;
    panel_brep <- (if is_surface pg then alloc (to_brep pg) else ret panel) ;;
    let extrusion_vector := vscale (ZAxis frame) 1 in
    oc <- load opening_curve ;;
    result_panel <-
      match create_extrusion oc extrusion_vector with
      | Some opening_surface =>
        opening_brep <- alloc (to_brep opening_surface) ;;
        pb <- load panel_brep ;;
        ob <- load opening_brep ;;
        match boolean_difference [pb] [ob] (1 # 100) with
        | f :: _ => alloc f
        | [] => ret panel_brep
        end
      | None => ret panel_brep
      end ;;
    opening_area <- (if Qlt_bool 0 scale_factor then
                       oc' <- load opening_curve ;; area_of oc'
                     else ret 0) ;;
    pg' <- load panel ;;
    panel_area <- area_of pg' ;;
    let opening_percent :=
      if Qlt_bool 0 panel_area then opening_area / panel_area * 100 else 0 in
    ret (result_panel,
         mkInfo panel_id scale_factor opening_area opening_percent panel_area
                None None None).

(** The loop [for i, (panel, panel_id, scale) in enumerate(zip(...))]. *)
Fixpoint fenestrate_loop (i : nat) (panels : list ref) (ids : list string)
    (scales : list Q) (opening_shape : ref) (categories : list Z)
    (data_values : list Q) (normalized : PyVal)
    : M (list ref * list FenInfo) :=
  match panels, ids, scales with
  | panel :: panels', panel_id :: ids', scale :: scales' =>
    r <- create_fenestrated_panel panel opening_shape scale panel_id ;;
    let (fenestrated, info) := r in
    cat <- lift (match nth_error categories i with
                 | Some c => Ok c | None => Err (IndexError "list index out of range") end) ;;
    dv <- lift (match nth_error data_values i with
                | Some d => Ok d | None => Err (IndexError "list index out of range") end) ;;
    nv <- lift (py_getitem normalized i) ;;
    let info' := mkInfo (id info) (opening_scale info) (opening_area info)
                        (opening_percent info) (panel_area info)
                        (Some cat) (Some dv) (Some nv) in
    rest <- fenestrate_loop (S i) panels' ids' scales' opening_shape categories
                            data_values normalized ;;
    ret (fenestrated :: fst rest, info' :: snd rest)
  | _, _, _ => ret ([], [])
  end.

Definition adaptive_fenestration (panels : list ref) (ids : list string)
    (data_values : list Q) (opening_shape : ref) (min_opening max_opening : Q)
    (num_categories : Z) (invert : bool)
    : M (list ref * list FenInfo * list Z * list Q) :=
  if negb (Nat.eqb (List.length panels) (List.length data_values)) then
    raise (ValueError "Number of panels must match number of data values")
  else if negb (Nat.eqb (List.length panels) (List.length ids)) then
    raise (ValueError "Number of panels must match number of IDs")
  else
    normalized <- lift (normalize_data data_values) ;;
    categories <- lift (bin_into_categories normalized num_categories) ;;
    norms <- lift (py_iter normalized) ;;
    scale_factors <- lift (mapR (fun norm =>
                       match py_num norm with
                       | Err e => Err e
                       | Ok n => Ok (calculate_opening_scale n min_opening max_opening invert)
                       end) norms) ;;
    r <- fenestrate_loop 0 panels ids scale_factors opening_shape categories
                         data_values normalized ;;
    ret (fst r, snd r, categories, scale_factors).

End Fenestration.
End Fenestration.

(** ** TwistedTowerLofter: [tower_twister.py] *)

Module Tower.
Import Heap Heap.Notations.
Section Tower.
Context {K : Kernel}.

(** [angle_rad = rotation_degrees * (3.14159265359 / 180.0)] *)
Definition angle_rad (rotation_degrees : Z) : R :=
  (IZR rotation_degrees * (3.14159265359 / 180.0))%R.

(** The transform built for floor [i] by the loop body:
    [Identity], then [*= Translation(0, 0, z_offset)], then, when the
    cumulative rotation is nonzero, [*= Rotation(angle_rad, ZAxis, axis_elevated)]. *)
Definition floor_transform (axis_point : Point3d) (floor_height : Q)
    (rotation_per_floor : Z) (i : nat) : Transform :=
  let z_offset := Q2R (inject_Z (Z.of_nat i) * floor_height) in
  let rotation_degrees := (Z.of_nat i * rotation_per_floor)%Z in
  let t := mul Identity (Translation 0 0 z_offset) in
  if Z.eqb rotation_degrees 0 then t
  else
    let axis_elevated := mkPoint (px axis_point) (py axis_point) z_offset in
    mul t (Rotation (angle_rad rotation_degrees) Vector3d_ZAxis axis_elevated).

(** [for i in range(floor_count)]: duplicate the base curve, transform the copy. *)
Fixpoint build_floors (base_curve : ref) (axis_point : Point3d) (floor_height : Q)
    (rotation_per_floor : Z) (is : list nat) : M (list ref) :=
  match is with
  | [] => ret []
  | i :: is' =>
    let xf := floor_transform axis_point floor_height rotation_per_floor i in
    bc <- load base_curve ;;
    new_curve <- alloc bc ;;
    transform_in_place new_curve xf ;;;
    rest <- build_floors base_curve axis_point floor_height rotation_per_floor is' ;;
    ret (new_curve :: rest)
  end.

(** [for face in brep.Faces: surfaces.append(face.UnderlyingSurface())] *)
Fixpoint append_faces (faces : list Geom) : M (list ref) :=
  match faces with
  | [] => ret []
  | f :: fs => s <- alloc (underlying_surface f) ;;
               rest <- append_faces fs ;;
               ret (s :: rest)
  end.

Definition index (l : list ref) (i : nat) : M ref :=
  lift (match nth_error l i with
        | Some r => Ok r
        | None => Err (IndexError "list index out of range")
        end).

(** [for i in range(floor_count - 1)]: loft floors [i] and [i + 1]. *)
Fixpoint loft_loop (floor_curves : list ref) (is : list nat) : M (list ref) :=
  match is with
  | [] => ret []
  | i :: is' =>
    r1 <- index floor_curves i ;;
    r2 <- index floor_curves (S i) ;;
    c1 <- load r1 ;;
    c2 <- load r2 ;;
    match create_from_loft [c1; c2] with
    | [] => raise (RuntimeError ("Loft failed between floors " ++ Fmt.str_nat (S i)
                                 ++ " and " ++ Fmt.str_nat (S (S i)) ++ "."))
    | brep :: _ =>
      s <- append_faces (brep_faces brep) ;;
      rest <- loft_loop floor_curves is' ;;
      ret (List.app s rest)
    end
  end.

(** [twist_tower(base_curve, floor_count, floor_height, rotation_per_floor,
    axis_point)], returning [(surfaces, floor_curves)]. *)
Definition twist_tower (base_curve : option ref) (floor_count : Z) (floor_height : Q)
    (rotation_per_floor : Z) (axis_point : option Point3d) : M (list ref * list ref) :=
  match base_curve with
  | None => raise (ValueError "No base curve provided.")
  | Some b =>
    bg <- load b ;;
    if negb (is_closed bg) then
      raise (ValueError "Base curve must be closed. Use closed polylines, circles, rectangles, or polygons.")
    else if (floor_count <? 2)%Z then
      raise (ValueError "Floor count must be at least 2.")
    else if Qle_bool floor_height 0 then
      raise (ValueError "Floor height must be > 0.")
    else
      let axis := match axis_point with
                  | None => bbox_center bg
                  | Some p => p
                  end in
      floor_curves <- build_floors b axis floor_height rotation_per_floor
                                   (seq 0 (Z.to_nat floor_count)) ;;
      surfaces <- loft_loop floor_curves (seq 0 (Z.to_nat (floor_count - 1))) ;;
      ret (surfaces, floor_curves)
  end.

End Tower.
End Tower.

(** ** The tower's floor placement as the spec words it *)

Module TowerSpec.
Local Open Scope R_scope.

(** Translation by [(0, 0, dz)]. *)
Definition translate_z (dz : R) (p : Point3d) : Point3d :=
  mkPoint (px p) (py p) (pz p + dz).

(** Rotation by [angle] radians about the line through [c] parallel to the
    Z axis: [c + Rz(angle) (p - c)]. *)
Definition rotate_about_z (angle : R) (c p : Point3d) : Point3d :=
  mkPoint (px c + (cos angle * (px p - px c) - sin angle * (py p - py c)))
          (py c + (sin angle * (px p - px c) + cos angle * (py p - py c)))
          (pz c + (pz p - pz c)).

(** Floor [i] of the spec: translation by [i * floor_height] first, then the
    rotation by [i * rotation_per_floor] degrees (converted by the code's
    [angle_rad]) about the axis elevated to that height. *)
Definition floor_placement (axis_point : Point3d) (floor_height : Q)
    (rotation_per_floor : Z) (i : nat) (p : Point3d) : Point3d :=
  let z := Q2R (inject_Z (Z.of_nat i) * floor_height) in
  rotate_about_z (Tower.angle_rad (Z.of_nat i * rotation_per_floor))
                 (mkPoint (px axis_point) (py axis_point) z)
                 (translate_z z p).

End TowerSpec.

(** ** A small kernel to run the generators on

    Geometry objects are numbers; transforming increments them, so a
    written object is visible in the store. *)

Module Toy.

Definition toy_kernel : Kernel := {|
  Geom := nat;
  is_surface := fun _ => true;
  is_brep_face := fun _ => false;
  is_brep := fun _ => false;
  underlying_surface := fun g => g;
  brep_faces := fun g => [g];
  domain := fun _ _ => (0%R, 1%R);
  point_at := fun _ u v => mkPoint u v 0;
  frame_at := fun _ _ _ => Some Plane_WorldXY;
  create_from_corners := fun _ _ _ _ => Some 0;
  is_closed := fun _ => true;
  bbox_center := fun _ => mkPoint 0 0 0;
  transform := fun _ g => S g;
  to_brep := fun g => g;
  create_extrusion := fun g _ => Some g;
  boolean_difference := fun a _ _ => a;
  area := fun _ => Some 1%Q;
  create_from_loft := fun _ => [0] |}.

(** A kernel that tells the object kinds apart ([0] a surface, [1] a brep
    face, [2] a brep without faces, [3] a brep whose face is [1], any other
    number a curve) and whose constructions fail: no patch from corners, no
    frame on a surface, no loft. *)
Definition failing_kernel : Kernel := {|
  Geom := nat;
  is_surface := fun g => Nat.eqb g 0;
  is_brep_face := fun g => Nat.eqb g 1;
  is_brep := fun g => Nat.eqb g 2 || Nat.eqb g 3;
  underlying_surface := fun _ => 0;
  brep_faces := fun g => if Nat.eqb g 3 then [1] else [];
  domain := fun _ _ => (0%R, 1%R);
  point_at := fun _ u v => mkPoint u v 0;
  frame_at := fun _ _ _ => None;
  create_from_corners := fun _ _ _ _ => None;
  is_closed := fun _ => true;
  bbox_center := fun _ => mkPoint 0 0 0;
  transform := fun _ g => S g;
  to_brep := fun g => g;
  create_extrusion := fun g _ => Some g;
  boolean_difference := fun a _ _ => a;
  area := fun _ => Some 1%Q;
  create_from_loft := fun _ => [] |}.

End Toy.

(** * Proofs *)

(** ** Panel ids *)

Module PanelIdFacts.
Import Fmt Panelizer.
Local Open Scope nat_scope.

Fixpoint dashfree (s : string) : Prop :=
  match s with
  | EmptyString => True
  | String c s' => c <> "-"%char /\ dashfree s'
  end.

Lemma dashfree_app s t : dashfree s -> dashfree t -> dashfree (s ++ t).
Proof. induction s; simpl; tauto. Qed.

Lemma dashfree_uint d : dashfree (NilEmpty.string_of_uint d).
Proof. induction d; simpl; split; auto; discriminate. Qed.

Lemma dashfree_zeros k : dashfree (string_of_list_ascii (repeat "0"%char k)).
Proof. induction k; simpl; auto. split; [discriminate | auto]. Qed.

Lemma dashfree_fmt02 n : dashfree (fmt02 n).
Proof. unfold fmt02. apply dashfree_app; [apply dashfree_zeros | apply dashfree_uint]. Qed.

Lemma read_zeros k d :
  read_nat (string_of_list_ascii (repeat "0"%char k) ++ NilEmpty.string_of_uint d)
  = Some (Nat.of_uint d).
Proof.
  unfold read_nat. induction k as [|k IH]; simpl.
  - rewrite NilEmpty.usu. reflexivity.
  - destruct (NilEmpty.uint_of_string
                (string_of_list_ascii (repeat "0"%char k) ++ NilEmpty.string_of_uint d))
      as [u|] eqn:E; simpl in *; [|discriminate].
    exact IH.
Qed.

(** Formatting with [02d] is read back exactly. *)
Lemma read_fmt02 n : read_nat (fmt02 n) = Some n.
Proof. unfold fmt02, str_nat. rewrite read_zeros. f_equal. apply DecimalNat.Unsigned.of_to. Qed.

Lemma fmt02_inj n m : fmt02 n = fmt02 m -> n = m.
Proof.
  intro H. pose proof (read_fmt02 n) as Hn. rewrite H, read_fmt02 in Hn.
  congruence.
Qed.

Lemma append_cancel_l (p a b : string) : (p ++ a = p ++ b)%string -> a = b.
Proof. induction p; simpl; auto. intro H; inversion H; auto. Qed.

Lemma split_dash (a a' b b' : string) :
  dashfree a -> dashfree a' ->
  (a ++ String "-" b = a' ++ String "-" b')%string -> a = a' /\ b = b'.
Proof.
  revert a'. induction a as [|c a IH]; intros [|c' a'] Ha Ha' H; simpl in *.
  - inversion H; auto.
  - inversion H; subst. destruct Ha' as [Hc _]. congruence.
  - inversion H; subst. destruct Ha as [Hc _]. congruence.
  - inversion H; subst. destruct (IH a') as [-> ->]; tauto.
Qed.

Lemma panel_id_inj p u v u' v' :
  panel_id p u v = panel_id p u' v' -> u = u' /\ v = v'.
Proof.
  unfold panel_id. intro H. apply append_cancel_l in H. simpl in H.
  inversion H as [H1].
  destruct (split_dash _ _ _ _ (dashfree_fmt02 u) (dashfree_fmt02 u') H1) as [Hu Hv].
  split; apply fmt02_inj; assumption.
Qed.

(** The row of ids emitted by the inner loop for a fixed [v]. *)
Definition row (p : string) (us : list nat) (v : nat) : list string :=
  map (fun u => panel_id p u v) us.

Lemma in_row p us v s : In s (row p us v) -> exists u, In u us /\ s = panel_id p u v.
Proof. unfold row. rewrite in_map_iff. intros [u [<- Hu]]. eauto. Qed.

Lemma NoDup_row p us v : NoDup us -> NoDup (row p us v).
Proof.
  unfold row. induction 1 as [|u us Hu _ IH]; simpl; constructor; auto.
  rewrite in_map_iff. intros [u' [Heq Hin]].
  apply panel_id_inj in Heq as [-> _]. contradiction.
Qed.

Lemma NoDup_rows p us vs :
  NoDup us -> NoDup vs -> NoDup (flat_map (row p us) vs).
Proof.
  intros Hus. induction 1 as [|v vs Hv _ IH]; simpl; [constructor|].
  apply NoDup_app; [apply NoDup_row; auto | exact IH |].
  intros s H1 H2. apply in_row in H1 as [u [_ ->]].
  apply in_flat_map in H2 as [v' [Hv' H2]]. apply in_row in H2 as [u' [_ Heq]].
  apply panel_id_inj in Heq as [_ ->]. contradiction.
Qed.

Lemma length_rows p us vs :
  List.length (flat_map (row p us) vs) = List.length vs * List.length us.
Proof.
  induction vs as [|v vs IH]; simpl; auto.
  rewrite length_app, IH. unfold row. rewrite length_map. lia.
Qed.

Lemma nth_rows_seq p n : forall m s j i,
  i < n -> j < m ->
  nth (j * n + i) (flat_map (row p (seq 1 n)) (seq s m)) ""%string
  = panel_id p (S i) (s + j).
Proof.
  induction m as [|m IH]; intros s j i Hi Hj; [lia|].
  simpl. destruct j as [|j].
  - rewrite app_nth1 by (unfold row; rewrite length_map, length_seq; lia).
    unfold row. rewrite nth_indep with (d' := panel_id p 0 s)
      by (rewrite length_map, length_seq; lia).
    rewrite (map_nth (fun u => panel_id p u s) (seq 1 n) 0), seq_nth by lia. f_equal; lia.
  - rewrite app_nth2 by (unfold row; rewrite length_map, length_seq; nia).
    unfold row at 1. rewrite length_map, length_seq.
    replace (S j * n + i - n) with (j * n + i) by nia.
    rewrite IH by lia. f_equal; lia.
Qed.

End PanelIdFacts.

(** ** Claims about the panelizer *)

Section PanelIds.
Import Panelizer PanelIdFacts.
Local Open Scope nat_scope.

(** C6: [generate_panel_ids] fails with a ValueError (the spec's
    InputValidationError) when a count is not positive; for positive counts
    it returns exactly [u_count * v_count] pairwise-distinct ids, the one at
    position [(v - 1) * u_count + (u - 1)] being [f"{prefix}-{u:02d}-{v:02d}"]
    (outer loop over [v], inner loop over [u]); and
    [generate_panel_ids(2, 3, "P")] is the six ids of the spec. *)
Theorem generate_panel_ids_contract (u_count v_count : Z) (prefix : string) :
  ((u_count <= 0 \/ v_count <= 0)%Z ->
     generate_panel_ids u_count v_count prefix
     = Err (ValueError "U and V counts must be > 0.")) /\
  ((0 < u_count)%Z -> (0 < v_count)%Z ->
     exists ids, generate_panel_ids u_count v_count prefix = Ok ids /\
       List.length ids = Z.to_nat (u_count * v_count) /\
       NoDup ids /\
       (forall u v, 1 <= u <= Z.to_nat u_count -> 1 <= v <= Z.to_nat v_count ->
          nth ((v - 1) * Z.to_nat u_count + (u - 1)) ids ""%string
          = panel_id prefix u v)) /\
  generate_panel_ids 2 3 "P"
  = Ok ["P-01-01"; "P-02-01"; "P-01-02"; "P-02-02"; "P-01-03"; "P-02-03"]%string.
Proof.
  split; [|split].
  - intros H. unfold generate_panel_ids.
    destruct H as [H|H]; apply Z.leb_le in H; rewrite H; [reflexivity|].
    rewrite orb_true_r. reflexivity.
  - intros Hu Hv. unfold generate_panel_ids.
    replace ((u_count <=? 0)%Z || (v_count <=? 0)%Z) with false
      by (symmetry; apply orb_false_iff; split; apply Z.leb_gt; lia).
    eexists; split; [reflexivity|]. fold (row prefix (range1 u_count)).
    unfold range1. split; [|split].
    + rewrite length_rows, !length_seq, Z2Nat.inj_mul by lia. lia.
    + apply NoDup_rows; apply seq_NoDup.
    + intros u v Hu' Hv'.
      rewrite nth_rows_seq by lia. f_equal; lia.
  - vm_compute. reflexivity.
Qed.

Lemma generate_panel_ids_contract_witness :
  generate_panel_ids 0 3 "P" = Err (ValueError "U and V counts must be > 0.") /\
  exists ids, generate_panel_ids 2 3 "P" = Ok ids /\ List.length ids = 6%nat /\ NoDup ids.
Proof.
  destruct (generate_panel_ids_contract 0 3 "P") as [H0 _].
  destruct (generate_panel_ids_contract 2 3 "P") as [_ [H1 _]].
  split; [apply H0; lia|].
  destruct (H1 ltac:(lia) ltac:(lia)) as [ids [E [L [N _]]]].
  exists ids. split; [exact E|]. split; [exact L | exact N].
Defined.

End PanelIds.

Module ResultFacts.

Lemma mapR_length {A B} (f : A -> Result B) l r :
  mapR f l = Ok r -> List.length r = List.length l.
Proof.
  revert r; induction l as [|x l IH]; intros r H; simpl in H.
  - inversion H; reflexivity.
  - destruct (f x); [|discriminate]. destruct (mapR f l) eqn:E; [|discriminate].
    inversion H; subst. simpl. f_equal. apply IH; reflexivity.
Qed.

Lemma mapR_total {A B} (f : A -> Result B) l :
  (forall x, exists y, f x = Ok y) -> exists r, mapR f l = Ok r.
Proof.
  intros Hf. induction l as [|x l [r IH]]; simpl; [eauto|].
  destruct (Hf x) as [y ->]. rewrite IH. eauto.
Qed.

Lemma length_flat_map_const {A B} (f : A -> list B) n l :
  (forall x, List.length (f x) = n) -> List.length (flat_map f l) = (List.length l * n)%nat.
Proof.
  intros Hf. induction l as [|x l IH]; simpl; auto.
  rewrite length_app, IH, Hf. reflexivity.
Qed.

End ResultFacts.

Section PanelizeClaims.
Import Panelizer Panelize ResultFacts.
Context {K : Kernel}.

Lemma length_cells u_count v_count :
  List.length (cells u_count v_count) = Z.to_nat v_count * Z.to_nat u_count.
Proof.
  unfold cells. rewrite (length_flat_map_const _ (Z.to_nat u_count)), length_seq; auto.
  intros j. rewrite length_map, length_seq. reflexivity.
Qed.

(** C5: whenever [panelize_surface] returns, it returns exactly
    [u_count * v_count] panels together with the very list
    [generate_panel_ids(u_count, v_count, prefix)], so panel [k] and id [k]
    are index-aligned (both follow the V-outer, U-inner loop order); and it
    does return for positive counts and a surface input that coerces to a
    surface, as long as the kernel builds every corner patch. *)
Theorem panelize_surface_ids_aligned (surface_input : option Geom)
    (u_count v_count : Z) (prefix : string) :
  (forall panels ids,
     panelize_surface surface_input u_count v_count prefix = Ok (panels, ids) ->
     List.length panels = Z.to_nat (u_count * v_count) /\
     generate_panel_ids u_count v_count prefix = Ok ids) /\
  ((0 < u_count)%Z -> (0 < v_count)%Z ->
   (exists si srf, surface_input = Some si /\ coerce_surface si = Ok srf) ->
   (forall p00 p10 p11 p01, create_from_corners p00 p10 p11 p01 <> None) ->
   exists panels ids,
     panelize_surface surface_input u_count v_count prefix = Ok (panels, ids)).
Proof.
  split.
  - intros panels ids H. unfold panelize_surface in H.
    destruct surface_input as [si|]; [|discriminate].
    destruct ((u_count <=? 0)%Z || (v_count <=? 0)%Z) eqn:Hc; [discriminate|].
    apply orb_false_iff in Hc as [Hu Hv]. apply Z.leb_gt in Hu, Hv.
    destruct (coerce_surface si) as [srf|e]; [|discriminate].
    destruct (generate_panel_ids u_count v_count prefix) as [ids'|e] eqn:Hg;
      [|discriminate].
    destruct (mapR _ _) as [ps|e] eqn:Hm; [|discriminate].
    inversion H; subst. split; [|reflexivity].
    rewrite (mapR_length _ _ _ Hm), length_cells, Z2Nat.inj_mul by lia. lia.
  - intros Hu Hv [si [srf [-> Hs]]] Hp. unfold panelize_surface.
    replace ((u_count <=? 0)%Z || (v_count <=? 0)%Z) with false
      by (symmetry; apply orb_false_iff; split; apply Z.leb_gt; lia).
    rewrite Hs. unfold generate_panel_ids.
    replace ((u_count <=? 0)%Z || (v_count <=? 0)%Z) with false
      by (symmetry; apply orb_false_iff; split; apply Z.leb_gt; lia).
    destruct (mapR_total (make_panel srf (params (domain srf 0) u_count)
                            (params (domain srf 1) v_count)) (cells u_count v_count))
      as [ps Hps]; [|rewrite Hps; eauto].
    intros [i j]. unfold make_panel.
    match goal with |- context [create_from_corners ?a ?b ?c ?d] =>
      destruct (create_from_corners a b c d) as [patch|] eqn:E end.
    + eauto.
    + exfalso. eapply Hp. exact E.
Qed.

End PanelizeClaims.

(** ** The data pipeline *)

Module DataFacts.
Import Data.
Local Open Scope Q_scope.

Lemma fold_min_const (d : Q) t m :
  Forall (fun x => x == d) t -> m == d ->
  fold_left (fun m y => if Qlt_bool y m then y else m) t m == d.
Proof.
  revert m. induction t as [|x t IH]; intros m Ht Hm; simpl; auto.
  inversion Ht; subst. apply IH; auto. destruct (Qlt_bool x m); auto.
Qed.

Lemma fold_max_const (d : Q) t m :
  Forall (fun x => x == d) t -> m == d ->
  fold_left (fun m y => if Qlt_bool m y then y else m) t m == d.
Proof.
  revert m. induction t as [|x t IH]; intros m Ht Hm; simpl; auto.
  inversion Ht; subst. apply IH; auto. destruct (Qlt_bool m x); auto.
Qed.

(** On a non-empty list of equal numbers, [normalize_data] takes its
    degenerate branch and returns the pair [([0.5] * n, [5] * n)]. *)
Lemma normalize_data_constant (data_values : list Q) (d : Q) :
  data_values <> [] -> Forall (fun x => x == d) data_values ->
  normalize_data data_values
  = Ok (PTuple [PList (repeat (PFloat (1 # 2)) (List.length data_values));
                PList (repeat (PInt 5) (List.length data_values))]).
Proof.
  intros Hne Hall. unfold normalize_data, py_min, py_max.
  destruct data_values as [|x t]; [congruence|].
  inversion Hall; subst.
  pose proof (fold_min_const d t x H2 H1) as Hmin.
  pose proof (fold_max_const d t x H2 H1) as Hmax.
  replace (Qeq_bool _ _) with true; [reflexivity|].
  symmetry. apply Qeq_bool_iff. rewrite Hmin, Hmax. reflexivity.
Qed.

(** [int(x)] and the floor agree below [min(., k - 1)] for [x = q * k]
    with [q] in [[0, 1]]. *)
Lemma trunc_floor_min (q : Q) (k : Z) :
  0 <= q <= 1 ->
  Z.min (Z.quot (Qnum (q * inject_Z k)) (Zpos (Qden (q * inject_Z k)))) (k - 1)
  = Z.min (Qfloor (q * inject_Z k)) (k - 1).
Proof.
  intros Hq. set (x := q * inject_Z k).
  destruct (Z_le_gt_dec 0 k) as [Hk|Hk].
  - assert (Hx : 0 <= x) by (unfold x; apply Qmult_le_0_compat; [lra|];
                               unfold Qle; simpl; lia).
    clearbody x.
    assert (Hn : (0 <= Qnum x)%Z) by (unfold Qle in Hx; simpl in Hx; lia).
    unfold Qfloor. destruct x as [n d]. simpl in *.
    rewrite Z.quot_div_nonneg by lia. reflexivity.
  - assert (Hx : inject_Z k <= x).
    { unfold x. assert (inject_Z k <= 0) by (unfold Qle; simpl; lia). nra. }
    clearbody x.
    assert (H1 : (k <= Qfloor x)%Z).
    { rewrite <- (Qfloor_Z k). apply Qfloor_resp_le. exact Hx. }
    assert (H2 : (k <= Z.quot (Qnum x) (Zpos (Qden x)))%Z).
    { unfold Qle in Hx. simpl in Hx.
      rewrite <- (Z.quot_mul k (Zpos (Qden x))) by lia.
      apply Z.quot_le_mono; lia. }
    rewrite !Z.min_r by lia. reflexivity.
Qed.

Lemma Qfloor_nonneg (x : Q) : 0 <= x -> (0 <= Qfloor x)%Z.
Proof. intros H. rewrite <- (Qfloor_Z 0). apply Qfloor_resp_le. exact H. Qed.

End DataFacts.

Section DataClaims.
Import Data DataFacts.
Local Open Scope Q_scope.

(** C1 (the code diverges): on [[5, 5, 5]] the degenerate branch of
    [normalize_data] returns the pair [([0.5, 0.5, 0.5], [5, 5, 5])], not the
    list [[0.5, 0.5, 0.5]] its other branch and its caller work with. *)
Theorem normalize_data_555 :
  normalize_data [5; 5; 5]
  = Ok (PTuple [PList [PFloat (1 # 2); PFloat (1 # 2); PFloat (1 # 2)];
                PList [PInt 5; PInt 5; PInt 5]]) /\
  normalize_data [5; 5; 5] <> Ok (PList [PFloat (1 # 2); PFloat (1 # 2); PFloat (1 # 2)]).
Proof. split; [reflexivity | discriminate]. Qed.

(** C9: on a list of normalized values (each in [[0, 1]]),
    [bin_into_categories] maps every value [norm] to
    [min(floor(norm * num_categories), num_categories - 1)], whatever
    [num_categories]; for a positive [num_categories] every category lies in
    [[0, num_categories)]; and [bin_into_categories([1.0], 11) == [10]]. *)
Theorem bin_into_categories_clamped (l : list Q) (num_categories : Z) :
  Forall (fun q => 0 <= q <= 1) l ->
  bin_into_categories (PList (map PFloat l)) num_categories
  = Ok (map (fun norm => Z.min (Qfloor (norm * inject_Z num_categories))
                               (num_categories - 1)) l) /\
  ((0 < num_categories)%Z ->
   Forall (fun c => 0 <= c < num_categories)%Z
     (map (fun norm => Z.min (Qfloor (norm * inject_Z num_categories))
                             (num_categories - 1)) l)) /\
  bin_into_categories (PList [PFloat 1]) 11 = Ok [10%Z].
Proof.
  intros Hl. split; [|split].
  - unfold bin_into_categories. cbn -[Qmult].
    induction Hl as [|q l Hq Hl IH]; cbn -[Qmult]; [reflexivity|].
    rewrite IH, trunc_floor_min by exact Hq. reflexivity.
  - intros Hk. induction Hl as [|q l Hq Hl IH]; cbn [map]; constructor; auto.
    assert (0 <= q * inject_Z num_categories)
      by (apply Qmult_le_0_compat; [lra | unfold Qle; simpl; lia]).
    pose proof (Qfloor_nonneg _ H). lia.
  - reflexivity.
Qed.

Lemma bin_into_categories_clamped_witness :
  bin_into_categories (PList (map PFloat [0; 1 # 2; 1])) 11 = Ok [0%Z; 5%Z; 10%Z] /\
  Forall (fun c => 0 <= c < 11)%Z [0%Z; 5%Z; 10%Z].
Proof.
  assert (Hl : Forall (fun q => 0 <= q <= 1) [0; 1 # 2; 1])
    by (repeat constructor; vm_compute; discriminate).
  destruct (bin_into_categories_clamped [0; 1 # 2; 1] 11 Hl) as [H1 [H2 _]].
  split; [exact H1 | exact (H2 ltac:(lia))].
Defined.

End DataClaims.

(** ** The store discipline: objects that exist before a call are never
    written by it *)

Module Frame.
Import Heap.
Section Frame.
Context {K : Kernel}.

(** [m] only appends objects, and only writes objects at index [n] or
    above, so the objects below [n] keep their contents. *)
Definition safe {A} (n : nat) (m : M A) : Prop :=
  forall h, n <= List.length h ->
    List.length h <= List.length (snd (m h)) /\
    forall r, r < n -> nth_error (snd (m h)) r = nth_error h r.

Lemma safe_ret {A} n (a : A) : safe n (ret a).
Proof. intros h Hh; simpl; auto. Qed.

Lemma safe_raise {A} n e : safe n (@raise _ A e).
Proof. intros h Hh; simpl; auto. Qed.

Lemma safe_lift {A} n (r : Result A) : safe n (lift r).
Proof. intros h Hh; simpl; auto. Qed.

Lemma safe_load n r : safe n (load r).
Proof. intros h Hh; unfold load; destruct (nth_error h r); simpl; auto. Qed.

Lemma safe_alloc n g : safe n (alloc g).
Proof.
  intros h Hh; unfold alloc; simpl. rewrite length_app. split; [lia|].
  intros r Hr. apply nth_error_app1. lia.
Qed.

Lemma length_set_nth h r g : List.length (set_nth h r g) = List.length h.
Proof. revert r; induction h; intros [|r]; simpl; auto. Qed.

Lemma nth_error_set_nth_other h r g r' :
  r' <> r -> nth_error (set_nth h r g) r' = nth_error h r'.
Proof.
  revert r r'; induction h; intros [|r] [|r'] Hne; simpl; auto; try lia.
  all: apply IHh; lia.
Qed.

Lemma safe_transform n r x : n <= r -> safe n (transform_in_place r x).
Proof.
  intros Hr h Hh; unfold transform_in_place.
  destruct (nth_error h r); simpl; [|auto].
  rewrite length_set_nth. split; [lia|].
  intros r' Hr'. apply nth_error_set_nth_other. lia.
Qed.

Lemma safe_bind {A B} n (m : M A) (k : A -> M B) :
  safe n m -> (forall a, safe n (k a)) -> safe n (bind m k).
Proof.
  intros Hm Hk h Hh. unfold bind.
  destruct (Hm h Hh) as [L1 F1].
  destruct (m h) as [[a|e] h1]; simpl in *; [|auto].
  destruct (Hk a h1 ltac:(lia)) as [L2 F2]. split; [lia|].
  intros r Hr. rewrite F2, F1 by exact Hr. reflexivity.
Qed.

(** A freshly allocated object lies above [n]. *)
Lemma safe_bind_alloc {B} n g (k : ref -> M B) :
  (forall r, n <= r -> safe n (k r)) -> safe n (bind (alloc g) k).
Proof.
  intros Hk h Hh. unfold bind, alloc. simpl.
  destruct (Hk (List.length h) Hh (List.app h [g])) as [L2 F2];
    [rewrite length_app; simpl; lia|].
  rewrite length_app in L2. simpl in L2. split; [lia|].
  intros r Hr. rewrite F2 by exact Hr. apply nth_error_app1. lia.
Qed.

End Frame.

Ltac safe_auto :=
  cbv beta zeta;
  lazymatch goal with
  | |- safe _ (bind (alloc _) _) =>
      apply safe_bind_alloc; let r := fresh "r" in let Hr := fresh "Hr" in
      intros r Hr; safe_auto
  | |- safe _ (bind _ _) =>
      apply safe_bind; [safe_auto | let a := fresh "a" in intros a; safe_auto]
  | |- safe _ (ret _) => apply safe_ret
  | |- safe _ (raise _) => apply safe_raise
  | |- safe _ (lift _) => apply safe_lift
  | |- safe _ (load _) => apply safe_load
  | |- safe _ (alloc _) => apply safe_alloc
  | |- safe _ (transform_in_place _ _) => apply safe_transform; assumption
  | |- safe _ (match ?x with _ => _ end) => destruct x; safe_auto
  | |- _ => idtac
  end.

End Frame.

Module FrameFacts.
Import Heap Frame Fenestration Tower.
Section FrameFacts.
Context {K : Kernel}.

Lemma create_fenestrated_panel_safe n panel opening_shape s panel_id :
  safe n (create_fenestrated_panel panel opening_shape s panel_id).
Proof. unfold create_fenestrated_panel, area_of. safe_auto. Qed.

Lemma fenestrate_loop_safe n i panels ids scales opening_shape categories data normalized :
  safe n (fenestrate_loop i panels ids scales opening_shape categories data normalized).
Proof.
  revert i ids scales. induction panels as [|p panels IH]; intros i ids scales;
    simpl; [apply safe_ret|].
  destruct ids; [apply safe_ret|]. destruct scales; [apply safe_ret|].
  apply safe_bind; [apply create_fenestrated_panel_safe|]. intros [fp info].
  safe_auto; apply IH.
Qed.

Lemma adaptive_fenestration_safe n panels ids data opening_shape mn mx k inv :
  safe n (adaptive_fenestration panels ids data opening_shape mn mx k inv).
Proof.
  unfold adaptive_fenestration. safe_auto. apply fenestrate_loop_safe.
Qed.

Lemma build_floors_safe n b axis fh rot is :
  safe n (build_floors b axis fh rot is).
Proof. induction is as [|i is IH]; simpl; safe_auto. exact IH. Qed.

Lemma append_faces_safe n fs : safe n (append_faces fs).
Proof. induction fs as [|f fs IH]; simpl; safe_auto. exact IH. Qed.

Lemma loft_loop_safe n fcs is : safe n (loft_loop fcs is).
Proof.
  induction is as [|i is IH]; simpl; unfold index; safe_auto.
  - apply append_faces_safe.
  - exact IH.
Qed.

Lemma twist_tower_safe n base fc fh rot axis :
  safe n (twist_tower base fc fh rot axis).
Proof.
  unfold twist_tower. safe_auto.
  all: first [apply build_floors_safe | apply loft_loop_safe].
Qed.

End FrameFacts.
End FrameFacts.

(** ** Claims about the fenestration and the tower's store discipline *)

Section FenestrationClaims.
Import Heap Frame FrameFacts Data DataFacts Fenestration Tower.
Context {K : Kernel}.

(** C8: none of the generators writes an object that exists before the
    call: after [twist_tower], [create_fenestrated_panel] or
    [adaptive_fenestration] (returning or raising), every object of the
    caller's store, the base curve and the opening template among them, is
    the very object it was; every [Transform] lands on a duplicate the call
    allocated itself. *)
Theorem generators_leave_inputs_unchanged :
  (forall base_curve floor_count floor_height rotation_per_floor axis_point h r,
     r < List.length h ->
     nth_error (snd (twist_tower base_curve floor_count floor_height
                                 rotation_per_floor axis_point h)) r
     = nth_error h r) /\
  (forall panel opening_shape scale_factor panel_id h r,
     r < List.length h ->
     nth_error (snd (create_fenestrated_panel panel opening_shape scale_factor
                                              panel_id h)) r
     = nth_error h r) /\
  (forall panels ids data_values opening_shape min_opening max_opening
          num_categories invert h r,
     r < List.length h ->
     nth_error (snd (adaptive_fenestration panels ids data_values opening_shape
                       min_opening max_opening num_categories invert h)) r
     = nth_error h r).
Proof.
  split; [|split].
  - intros. apply (twist_tower_safe (List.length h)); auto.
  - intros. apply (create_fenestrated_panel_safe (List.length h)); auto.
  - intros. apply (adaptive_fenestration_safe (List.length h)); auto.
Qed.

(** C10: with [scale_factor == 0], [create_fenestrated_panel] returns the
    panel reference it was given, with a metrics record whose opening scale,
    opening area and opening percent are 0 (the panel area is the kernel's
    area of the panel), and creates nothing. *)
Theorem create_fenestrated_panel_solid (panel opening_shape : ref) (scale_factor : Q)
    (panel_id : string) (h : heap) (g : Geom) (a : Q) :
  (scale_factor == 0)%Q -> nth_error h panel = Some g -> area g = Some a ->
  create_fenestrated_panel panel opening_shape scale_factor panel_id h
  = (Ok (panel, mkInfo panel_id 0 0 0 a None None None), h).
Proof.
  intros Hs Hg Ha. unfold create_fenestrated_panel.
  replace (Qeq_bool scale_factor 0) with true by (symmetry; apply Qeq_bool_iff; exact Hs).
  unfold bind, load, area_of. rewrite Hg, Ha. reflexivity.
Qed.

(** C7: when the three index-aligned sequences differ in length,
    [adaptive_fenestration] raises a ValueError (the spec's
    InputValidationError) before doing anything else: the store comes back
    as it was, no object created and no output built. *)
Theorem adaptive_fenestration_length_mismatch (panels : list ref) (ids : list string)
    (data_values : list Q) (opening_shape : ref) (min_opening max_opening : Q)
    (num_categories : Z) (invert : bool) (h : heap) :
  (List.length panels <> List.length ids \/
   List.length panels <> List.length data_values \/
   List.length ids <> List.length data_values) ->
  exists msg,
    adaptive_fenestration panels ids data_values opening_shape min_opening max_opening
                          num_categories invert h
    = (Err (ValueError msg), h).
Proof.
  intros Hne. unfold adaptive_fenestration.
  destruct (Nat.eqb (List.length panels) (List.length data_values)) eqn:E1.
  - apply Nat.eqb_eq in E1.
    destruct (Nat.eqb (List.length panels) (List.length ids)) eqn:E2.
    + apply Nat.eqb_eq in E2. exfalso. lia.
    + simpl. eexists. reflexivity.
  - simpl. eexists. reflexivity.
Qed.

(** C2: with length-matched, non-empty inputs whose data values are all
    equal, [adaptive_fenestration] raises a TypeError: [normalize_data]
    returns the pair [(normalized, categories)], [bin_into_categories]
    iterates over the pair, and [int()] of [normalized * num_categories]
    (a list) fails; none of the four outputs is produced and the store is
    left as it was. *)
Theorem adaptive_fenestration_constant_data_raises (panels : list ref)
    (ids : list string) (data_values : list Q) (d : Q) (opening_shape : ref)
    (min_opening max_opening : Q) (num_categories : Z) (invert : bool) (h : heap) :
  data_values <> [] -> Forall (fun x => x == d)%Q data_values ->
  List.length panels = List.length data_values ->
  List.length ids = List.length data_values ->
  exists msg,
    adaptive_fenestration panels ids data_values opening_shape min_opening max_opening
                          num_categories invert h
    = (Err (TypeError msg), h).
Proof.
  intros Hne Hall Hp Hi. unfold adaptive_fenestration.
  replace (Nat.eqb (List.length panels) (List.length data_values)) with true
    by (symmetry; apply Nat.eqb_eq; lia).
  replace (Nat.eqb (List.length panels) (List.length ids)) with true
    by (symmetry; apply Nat.eqb_eq; lia).
  simpl.
  unfold bind, lift. rewrite (normalize_data_constant _ d Hne Hall).
  destruct data_values as [|x t]; [congruence|].
  simpl. eexists. reflexivity.
Qed.

End FenestrationClaims.

(** ** The tower *)

Section TowerTransformClaims.
Import Tower TowerSpec.
Local Open Scope R_scope.

(** C3: for a floor [i] whose cumulative rotation [i * rotation_per_floor]
    is nonzero, the one transform the loop composes
    ([Identity * Translation(0, 0, z) * Rotation(angle, ZAxis, axis_elevated)])
    maps every point as the translation by [(0, 0, i * floor_height)]
    followed by the rotation by the floor's angle about the Z axis through
    [(axis_point.X, axis_point.Y, i * floor_height)]. *)
Theorem floor_transform_translate_then_rotate (axis_point : Point3d)
    (floor_height : Q) (rotation_per_floor : Z) (i : nat) (p : Point3d) :
  (Z.of_nat i * rotation_per_floor <> 0)%Z ->
  apply (floor_transform axis_point floor_height rotation_per_floor i) p
  = rotate_about_z (angle_rad (Z.of_nat i * rotation_per_floor))
      (mkPoint (px axis_point) (py axis_point)
               (Q2R (inject_Z (Z.of_nat i) * floor_height)))
      (translate_z (Q2R (inject_Z (Z.of_nat i) * floor_height)) p).
Proof.
  intros Hrot. unfold floor_transform.
  apply Z.eqb_neq in Hrot. rewrite Hrot.
  destruct p as [x y z]. unfold apply, mul, Identity, Translation, Rotation,
    rotate_about_z, translate_z, Vector3d_ZAxis. simpl.
  f_equal; ring.
Qed.

Lemma floor_transform_translate_then_rotate_witness :
  apply (floor_transform (mkPoint 1 2 0) 3 15 2) (mkPoint 5 5 0)
  = rotate_about_z (angle_rad 30)
      (mkPoint 1 2 (Q2R (inject_Z 2 * 3)))
      (translate_z (Q2R (inject_Z 2 * 3)) (mkPoint 5 5 0)).
Proof.
  exact (floor_transform_translate_then_rotate (mkPoint 1 2 0) 3 15 2 (mkPoint 5 5 0)
           ltac:(simpl; lia)).
Defined.

(** Every floor, rotated or not, is placed as the spec says: with no
    rotation the elevated rotation by 0 radians is the identity. *)
Lemma floor_transform_placement (axis_point : Point3d) (floor_height : Q)
    (rotation_per_floor : Z) (i : nat) (p : Point3d) :
  apply (floor_transform axis_point floor_height rotation_per_floor i) p
  = floor_placement axis_point floor_height rotation_per_floor i p.
Proof.
  destruct (Z.eq_dec (Z.of_nat i * rotation_per_floor) 0) as [H0|H0].
  - unfold floor_transform, floor_placement. rewrite H0. cbn [Z.eqb].
    assert (Ha : angle_rad 0 = 0) by (unfold angle_rad; simpl; ring).
    unfold rotate_about_z. rewrite Ha, cos_0, sin_0.
    destruct p as [x y z]. unfold apply, mul, Identity, Translation,
      rotate_about_z, translate_z. simpl. f_equal; ring.
  - apply floor_transform_translate_then_rotate. exact H0.
Qed.

End TowerTransformClaims.

Module TowerRun.
Import Heap Heap.Notations Tower.
Section TowerRun.
Context {K : Kernel}.

Lemma set_nth_last (h : heap) x y : set_nth (List.app h [x]) (List.length h) y = List.app h [y].
Proof. induction h as [|a h IH]; simpl; [reflexivity|]. rewrite IH. reflexivity. Qed.

Lemma nth_error_grow (h : heap) l r g :
  nth_error h r = Some g -> nth_error (List.app h l) r = Some g.
Proof.
  intros H. rewrite nth_error_app1; [exact H|].
  apply nth_error_Some. congruence.
Qed.

(** The floor loop allocates one transformed copy of the base curve per
    floor, at consecutive fresh references. *)
Lemma build_floors_run b g axis fh rot is (h : heap) :
  nth_error h b = Some g ->
  build_floors b axis fh rot is h
  = (Ok (seq (List.length h) (List.length is)),
     List.app h (map (fun i => transform (floor_transform axis fh rot i) g) is)).
Proof.
  revert h. induction is as [|i is IH]; intros h Hb; simpl.
  - rewrite List.app_nil_r. reflexivity.
  - unfold bind at 1, load. rewrite Hb.
    unfold bind at 1, alloc.
    unfold bind at 1, transform_in_place.
    rewrite nth_error_app2, Nat.sub_diag by lia. simpl.
    rewrite set_nth_last.
    unfold bind, ret. rewrite IH by (apply nth_error_grow; exact Hb).
    rewrite length_app. simpl.
    rewrite <- List.app_assoc. simpl. rewrite Nat.add_1_r. reflexivity.
Qed.

Lemma append_faces_run fs (h : heap) :
  append_faces fs h
  = (Ok (seq (List.length h) (List.length fs)), List.app h (map underlying_surface fs)).
Proof.
  revert h. induction fs as [|f fs IH]; intros h; simpl.
  - rewrite List.app_nil_r. reflexivity.
  - unfold bind, alloc, ret. rewrite IH.
    rewrite length_app, <- List.app_assoc. simpl. rewrite Nat.add_1_r. reflexivity.
Qed.

Definition lofts_succeed : Prop :=
  forall c1 c2, exists brep breps,
    create_from_loft [c1; c2] = brep :: breps /\ brep_faces brep <> [].

(** With every loft succeeding, the loft loop returns at least one surface
    per consecutive pair of floors. *)
Lemma loft_loop_run fcs is (h : heap) :
  lofts_succeed ->
  (forall i, In i is -> S i < List.length fcs) ->
  (forall r, In r fcs -> r < List.length h) ->
  exists surfaces h',
    loft_loop fcs is h = (Ok surfaces, h') /\ List.length is <= List.length surfaces.
Proof.
  intros Hl. revert h. induction is as [|i is IH]; intros h Hi Hr; simpl.
  - exists [], h. split; [reflexivity | simpl; lia].
  - assert (Hi0 : S i < List.length fcs) by (apply Hi; left; reflexivity).
    destruct (nth_error fcs i) as [r1|] eqn:E1;
      [|apply nth_error_None in E1; lia].
    destruct (nth_error fcs (S i)) as [r2|] eqn:E2;
      [|apply nth_error_None in E2; lia].
    assert (H1 : r1 < List.length h) by (apply Hr; eapply nth_error_In; eauto).
    assert (H2 : r2 < List.length h) by (apply Hr; eapply nth_error_In; eauto).
    destruct (nth_error h r1) as [c1|] eqn:C1; [|apply nth_error_None in C1; lia].
    destruct (nth_error h r2) as [c2|] eqn:C2; [|apply nth_error_None in C2; lia].
    destruct (Hl c1 c2) as [brep [breps [Hb Hf]]].
    destruct (IH (List.app h (map underlying_surface (brep_faces brep))))
      as [s [h' [Hrun Hlen]]].
    + intros j Hj. apply Hi. right. exact Hj.
    + intros r Hin. rewrite length_app. specialize (Hr r Hin). lia.
    + exists (List.app (seq (List.length h) (List.length (brep_faces brep))) s), h'.
      split.
      * unfold bind, index, lift, load. unfold ref in *. rewrite E1, E2, C1, C2, Hb.
        fold (@bind _ (list ref) (list ref)). rewrite append_faces_run.
        unfold bind. rewrite Hrun. reflexivity.
      * rewrite length_app, length_seq. simpl.
        destruct (brep_faces brep); [congruence|]. simpl. unfold ref in *. lia.
Qed.

End TowerRun.
End TowerRun.

Section TowerClaims.
Import Heap Heap.Notations Tower TowerSpec TowerRun Frame FrameFacts.
Context {K : Kernel}.

(** C4: [twist_tower] raises a ValueError (the spec's InputValidationError)
    when [base_curve] is [None], not closed, [floor_count < 2] or
    [floor_height <= 0], leaving the store as it was; for a closed base curve,
    [floor_count >= 2] and [floor_height > 0], as long as the kernel lofts
    every pair of curves into a brep with a face, it returns exactly
    [floor_count] floor curves and at least [floor_count - 1] surfaces (so 4
    curves and at least 3 surfaces for [floor_count = 4]), and floor [i]'s
    curve is the base curve moved by a transform that places each point at
    elevation [i * floor_height] and rotates it by [i * rotation_per_floor]
    degrees about the axis elevated to that height. *)
Theorem twist_tower_contract (floor_count : Z) (floor_height : Q)
    (rotation_per_floor : Z) (axis_point : option Point3d) (h : heap) :
  twist_tower None floor_count floor_height rotation_per_floor axis_point h
  = (Err (ValueError "No base curve provided."), h) /\
  (forall b g, nth_error h b = Some g ->
     (is_closed g = false \/ (floor_count < 2)%Z \/ (floor_height <= 0)%Q) ->
     exists msg,
       twist_tower (Some b) floor_count floor_height rotation_per_floor axis_point h
       = (Err (ValueError msg), h)) /\
  (forall b g, nth_error h b = Some g -> is_closed g = true ->
     (2 <= floor_count)%Z -> (0 < floor_height)%Q -> lofts_succeed ->
     let axis := match axis_point with Some p => p | None => bbox_center g end in
     exists surfaces floor_curves h',
       twist_tower (Some b) floor_count floor_height rotation_per_floor axis_point h
       = (Ok (surfaces, floor_curves), h') /\
       List.length floor_curves = Z.to_nat floor_count /\
       Z.to_nat floor_count - 1 <= List.length surfaces /\
       forall i, i < Z.to_nat floor_count ->
         exists r, nth_error floor_curves i = Some r /\
           nth_error h' r
           = Some (transform (floor_transform axis floor_height rotation_per_floor i) g) /\
           forall p, apply (floor_transform axis floor_height rotation_per_floor i) p
                     = floor_placement axis floor_height rotation_per_floor i p).
Proof.
  split; [reflexivity|split].
  - intros b g Hg Hbad. unfold twist_tower, bind, load. rewrite Hg.
    destruct (is_closed g) eqn:Hc; simpl; [|eexists; reflexivity].
    destruct Hbad as [Hbad|[Hbad|Hbad]]; [congruence| |].
    + apply Z.ltb_lt in Hbad. rewrite Hbad. eexists; reflexivity.
    + destruct (floor_count <? 2)%Z; [eexists; reflexivity|].
      apply Qle_bool_iff in Hbad. rewrite Hbad. eexists; reflexivity.
  - intros b g Hg Hc Hfc Hfh Hl axis.
    set (n := Z.to_nat floor_count).
    set (h1 := List.app h (map (fun i => transform
                 (floor_transform axis floor_height rotation_per_floor i) g) (seq 0 n))).
    assert (Hlen1 : List.length h1 = List.length h + n)
      by (unfold h1; rewrite length_app, length_map, length_seq; reflexivity).
    destruct (loft_loop_run (seq (List.length h) n) (seq 0 (Z.to_nat (floor_count - 1))) h1 Hl)
      as [surfaces [h' [Hrun Hs]]].
    + intros i Hi. apply in_seq in Hi. rewrite length_seq. unfold n. lia.
    + intros r Hr. apply in_seq in Hr. lia.
    + exists surfaces, (seq (List.length h) n), h'. split; [|split; [|split]].
      * unfold twist_tower, bind at 1, load. rewrite Hg, Hc.
        replace (floor_count <? 2)%Z with false by (symmetry; apply Z.ltb_ge; lia).
        replace (Qle_bool floor_height 0) with false
          by (symmetry; apply not_true_iff_false; rewrite Qle_bool_iff; lra).
        unfold bind. fold n axis.
        cbn [negb]. rewrite (build_floors_run b g axis floor_height rotation_per_floor (seq 0 n) h Hg).
        rewrite length_seq. fold h1. rewrite Hrun. reflexivity.
      * apply length_seq.
      * rewrite length_seq in Hs. unfold n. lia.
      * intros i Hi. fold n in Hi. exists (List.length h + i). split; [|split].
        -- rewrite nth_error_seq. destruct (Nat.ltb_spec i n); [|lia].
           reflexivity.
        -- pose proof (loft_loop_safe (List.length h1) (seq (List.length h) n)
                         (seq 0 (Z.to_nat (floor_count - 1))) h1 (le_n _)) as [_ F].
           rewrite Hrun in F. simpl in F. rewrite F by lia.
           unfold h1. rewrite nth_error_app2 by lia.
           replace (List.length h + i - List.length h) with i by lia.
           rewrite nth_error_map, nth_error_seq. destruct (Nat.ltb_spec i n); [|lia].
           reflexivity.
        -- intros p. apply floor_transform_placement.
Qed.

End TowerClaims.

(** ** Instances of the claims on the small kernel *)

Section Witnesses.
Import Toy Heap Panelizer Panelize Data Fenestration Tower TowerRun.

Lemma panelize_surface_ids_aligned_witness :
  exists panels ids,
    @panelize_surface toy_kernel (Some 0) 2 3 "P" = Ok (panels, ids) /\
    List.length panels = 6 /\ generate_panel_ids 2 3 "P" = Ok ids.
Proof.
  destruct (@panelize_surface_ids_aligned toy_kernel (Some 0) 2 3 "P") as [H1 H2].
  destruct (H2 ltac:(lia) ltac:(lia)
              (ex_intro _ 0 (ex_intro _ 0 (conj eq_refl eq_refl)))
              (fun _ _ _ _ => ltac:(discriminate))) as [ps [ids E]].
  exists ps, ids. split; [exact E|]. exact (H1 ps ids E).
Defined.

Lemma adaptive_fenestration_length_mismatch_witness :
  exists msg,
    @adaptive_fenestration toy_kernel [0] [] [1%Q] 0 0%Q (1 # 2)%Q 11 true [0]
    = (Err (ValueError msg), [0]).
Proof.
  apply (@adaptive_fenestration_length_mismatch toy_kernel [0] [] [1%Q] 0 0%Q (1 # 2)%Q
           11 true [0]).
  left. simpl. lia.
Defined.

Lemma adaptive_fenestration_constant_data_raises_witness :
  exists msg,
    @adaptive_fenestration toy_kernel [0; 1] ["P-01-01"; "P-02-01"]%string [5%Q; 5%Q] 2
      0%Q (1 # 2)%Q 11 true [3; 4; 9]
    = (Err (TypeError msg), [3; 4; 9]).
Proof.
  apply (@adaptive_fenestration_constant_data_raises toy_kernel [0; 1]
           ["P-01-01"; "P-02-01"]%string [5%Q; 5%Q] 5%Q 2 0%Q (1 # 2)%Q 11 true [3; 4; 9]).
  - discriminate.
  - repeat constructor.
  - reflexivity.
  - reflexivity.
Defined.

Lemma create_fenestrated_panel_solid_witness :
  @create_fenestrated_panel toy_kernel 0 1 0%Q "P-01-01" [5; 7]
  = (Ok (0, mkInfo "P-01-01" 0 0 0 1 None None None), [5; 7]).
Proof.
  apply (@create_fenestrated_panel_solid toy_kernel 0 1 0%Q "P-01-01" [5; 7] 5 1%Q).
  - reflexivity.
  - reflexivity.
  - reflexivity.
Defined.

Lemma generators_leave_inputs_unchanged_witness :
  nth_error (snd (@twist_tower toy_kernel (Some 0) 4 3%Q 15 None [7])) 0 = Some 7 /\
  nth_error (snd (@create_fenestrated_panel toy_kernel 0 1 (1 # 4)%Q "P-01-01" [5; 7])) 1
  = Some 7 /\
  nth_error (snd (@adaptive_fenestration toy_kernel [0; 0] ["a"; "b"]%string [1%Q; 2%Q] 1
                    0%Q (1 # 2)%Q 11 true [5; 7])) 1 = Some 7.
Proof.
  destruct (@generators_leave_inputs_unchanged toy_kernel) as [T [C A]].
  split; [|split].
  - rewrite (T (Some 0) 4%Z 3%Q 15%Z None [7] 0 ltac:(simpl; lia)). reflexivity.
  - rewrite (C 0 1 (1 # 4)%Q "P-01-01"%string [5; 7] 1 ltac:(simpl; lia)). reflexivity.
  - rewrite (A [0; 0] ["a"; "b"]%string [1%Q; 2%Q] 1 0%Q (1 # 2)%Q 11%Z true [5; 7] 1
               ltac:(simpl; lia)).
    reflexivity.
Defined.

Lemma twist_tower_contract_witness :
  (exists msg, @twist_tower toy_kernel (Some 0) 1 3%Q 15 None [7]
               = (Err (ValueError msg), [7])) /\
  (exists surfaces floor_curves h',
     @twist_tower toy_kernel (Some 0) 4 3%Q 15 None [7]
     = (Ok (surfaces, floor_curves), h') /\
     List.length floor_curves = 4 /\ 3 <= List.length surfaces).
Proof.
  destruct (@twist_tower_contract toy_kernel 1 3%Q 15 None [7]) as [_ [E _]].
  destruct (@twist_tower_contract toy_kernel 4 3%Q 15 None [7]) as [_ [_ S]].
  split.
  - apply (E 0 7 eq_refl). right. left. lia.
  - assert (Hl : @lofts_succeed toy_kernel).
    { intros c1 c2. exists 0, []. split; [reflexivity | discriminate]. }
    destruct (S 0 7 eq_refl eq_refl ltac:(lia) ltac:(reflexivity) Hl)
      as [surfaces [fcs [h' [Hrun [Hn [Hs _]]]]]].
    exists surfaces, fcs, h'. split; [exact Hrun|]. split; [exact Hn|].
    simpl in Hs. lia.
Defined.

End Witnesses.

Module DataMore.
Import Data DataFacts.
Local Open Scope Q_scope.

Lemma Qlt_bool_true x y : Qlt_bool x y = true <-> x < y.
Proof.
  unfold Qlt_bool. rewrite negb_true_iff, <- not_true_iff_false, Qle_bool_iff.
  split; [apply Qnot_le_lt | apply Qlt_not_le].
Qed.

Lemma fold_min_spec t m :
  let r := fold_left (fun m y => if Qlt_bool y m then y else m) t m in
  (r = m \/ In r t) /\ r <= m /\ Forall (fun x => r <= x) t.
Proof.
  revert m. induction t as [|x t IH]; intros m; simpl.
  - split; [left; reflexivity | split; [apply Qle_refl | constructor]].
  - destruct (IH (if Qlt_bool x m then x else m)) as [H1 [H2 H3]].
    set (r := fold_left _ t _) in *.
    assert (Hm : (if Qlt_bool x m then x else m) <= m /\
                 (if Qlt_bool x m then x else m) <= x).
    { destruct (Qlt_bool x m) eqn:E.
      - apply Qlt_bool_true in E. lra.
      - split; [lra|]. apply Qnot_lt_le. intros C. apply Qlt_bool_true in C. congruence. }
    split; [|split].
    + destruct H1 as [H1|H1]; [|right; right; exact H1].
      destruct (Qlt_bool x m); [right; left; auto | left; auto].
    + lra.
    + constructor; [lra | exact H3].
Qed.

Lemma fold_max_spec t m :
  let r := fold_left (fun m y => if Qlt_bool m y then y else m) t m in
  (r = m \/ In r t) /\ m <= r /\ Forall (fun x => x <= r) t.
Proof.
  revert m. induction t as [|x t IH]; intros m; simpl.
  - split; [left; reflexivity | split; [apply Qle_refl | constructor]].
  - destruct (IH (if Qlt_bool m x then x else m)) as [H1 [H2 H3]].
    set (r := fold_left _ t _) in *.
    assert (Hm : m <= (if Qlt_bool m x then x else m) /\
                 x <= (if Qlt_bool m x then x else m)).
    { destruct (Qlt_bool m x) eqn:E.
      - apply Qlt_bool_true in E. lra.
      - split; [lra|]. apply Qnot_lt_le. intros C. apply Qlt_bool_true in C. congruence. }
    split; [|split].
    + destruct H1 as [H1|H1]; [|right; right; exact H1].
      destruct (Qlt_bool m x); [right; left; auto | left; auto].
    + lra.
    + constructor; [lra | exact H3].
Qed.

Lemma py_min_spec xs m :
  py_min xs = Ok m -> In m xs /\ Forall (fun x => m <= x) xs.
Proof.
  destruct xs as [|x t]; simpl; [discriminate|]. intros E. injection E as <-.
  destruct (fold_min_spec t x) as [H1 [H2 H3]]. split.
  - destruct H1 as [H1|H1]; [left; auto | right; auto].
  - constructor; auto.
Qed.

Lemma py_max_spec xs m :
  py_max xs = Ok m -> In m xs /\ Forall (fun x => x <= m) xs.
Proof.
  destruct xs as [|x t]; simpl; [discriminate|]. intros E. injection E as <-.
  destruct (fold_max_spec t x) as [H1 [H2 H3]]. split.
  - destruct H1 as [H1|H1]; [left; auto | right; auto].
  - constructor; auto.
Qed.

(** On data that holds two different values, [normalize_data] takes its
    main branch: [(val - min_val) / (max_val - min_val)] for every value,
    with [min_val < max_val] the least and greatest values. *)
Lemma normalize_data_spread (data_values : list Q) :
  (exists x y, In x data_values /\ In y data_values /\ ~ x == y) ->
  exists mn mx, mn < mx /\ In mn data_values /\ In mx data_values /\
    Forall (fun x => mn <= x <= mx) data_values /\
    normalize_data data_values
    = Ok (PList (map (fun val => PFloat ((val - mn) / (mx - mn))) data_values)).
Proof.
  intros [x [y [Hx [Hy Hxy]]]]. unfold normalize_data.
  destruct (py_min data_values) as [mn|e] eqn:Emin;
    [|destruct data_values; simpl in *; [contradiction | discriminate]].
  destruct (py_max data_values) as [mx|e] eqn:Emax;
    [|destruct data_values; simpl in *; [contradiction | discriminate]].
  destruct (py_min_spec _ _ Emin) as [Imn Fmn].
  destruct (py_max_spec _ _ Emax) as [Imx Fmx].
  rewrite Forall_forall in Fmn, Fmx.
  assert (Hlt : mn < mx).
  { pose proof (Fmn x Hx). pose proof (Fmn y Hy). pose proof (Fmx x Hx).
    pose proof (Fmx y Hy). apply Qnot_le_lt. intros C. apply Hxy. lra. }
  exists mn, mx. split; [exact Hlt|]. split; [exact Imn|]. split; [exact Imx|].
  split; [rewrite Forall_forall; intros z Hz; split; auto|].
  replace (Qeq_bool mx mn) with false; [reflexivity|].
  symmetry. apply not_true_iff_false. rewrite Qeq_bool_iff. lra.
Qed.

(** The affine map of the main branch. *)
Lemma normalize_map_bounds (mn mx v : Q) :
  mn < mx -> mn <= v <= mx -> 0 <= (v - mn) / (mx - mn) <= 1.
Proof.
  intros Hlt Hv. split.
  - apply Qle_shift_div_l; lra.
  - apply Qle_shift_div_r; lra.
Qed.

Lemma normalize_map_mono (mn mx v w : Q) :
  mn < mx -> v <= w -> (v - mn) / (mx - mn) <= (w - mn) / (mx - mn).
Proof.
  intros Hlt Hvw. unfold Qdiv. apply Qmult_le_compat_r; [lra|].
  apply Qinv_le_0_compat. lra.
Qed.

Lemma normalize_map_ends (mn mx : Q) :
  mn < mx -> (mn - mn) / (mx - mn) == 0 /\ (mx - mn) / (mx - mn) == 1.
Proof.
  intros Hlt. split.
  - setoid_replace (mn - mn) with 0 by ring. unfold Qdiv. ring.
  - unfold Qdiv. apply Qmult_inv_r. intros C. lra.
Qed.

Lemma opening_scale_range (n mn mx : Q) (invert : bool) :
  0 <= n <= 1 -> mn <= mx ->
  mn <= calculate_opening_scale n mn mx invert <= mx.
Proof.
  intros Hn Hm. unfold calculate_opening_scale.
  assert (0 <= n * (mx - mn)) by (apply Qmult_le_0_compat; lra).
  assert (n * (mx - mn) <= mx - mn).
  { setoid_replace (mx - mn) with (1 * (mx - mn)) at 2 by ring.
    apply Qmult_le_compat_r; lra. }
  destruct invert; split; lra.
Qed.

Lemma opening_scale_mono (n1 n2 mn mx : Q) :
  n1 <= n2 -> mn <= mx ->
  calculate_opening_scale n1 mn mx false <= calculate_opening_scale n2 mn mx false /\
  calculate_opening_scale n2 mn mx true <= calculate_opening_scale n1 mn mx true.
Proof.
  intros Hn Hm. unfold calculate_opening_scale.
  assert (n1 * (mx - mn) <= n2 * (mx - mn)) by (apply Qmult_le_compat_r; lra).
  split; lra.
Qed.

End DataMore.

Module BinMore.
Import Data DataFacts DataMore.
Local Open Scope Q_scope.

Lemma bin_floats (g : Q -> Q) (l : list Q) (k : Z) :
  Forall (fun v => 0 <= g v <= 1) l ->
  bin_into_categories (PList (map (fun v => PFloat (g v)) l)) k
  = Ok (map (fun v => Z.min (Qfloor (g v * inject_Z k)) (k - 1)) l).
Proof.
  intros Hl. unfold bin_into_categories. cbn -[Qmult].
  induction Hl as [|v l Hv Hl IH]; cbn -[Qmult]; [reflexivity|].
  rewrite IH, trunc_floor_min by exact Hv. reflexivity.
Qed.

Lemma category_mono (q1 q2 : Q) (k : Z) :
  (0 <= k)%Z -> q1 <= q2 ->
  (Z.min (Qfloor (q1 * inject_Z k)) (k - 1) <= Z.min (Qfloor (q2 * inject_Z k)) (k - 1))%Z.
Proof.
  intros Hk Hq. apply Z.min_le_compat_r. apply Qfloor_resp_le.
  apply Qmult_le_compat_r; [exact Hq|]. unfold Qle; simpl; lia.
Qed.

Lemma category_bounds (q : Q) (k : Z) :
  (0 < k)%Z -> 0 <= q ->
  (0 <= Z.min (Qfloor (q * inject_Z k)) (k - 1) < k)%Z.
Proof.
  intros Hk Hq.
  assert (0 <= q * inject_Z k) by (apply Qmult_le_0_compat; [lra | unfold Qle; simpl; lia]).
  pose proof (Qfloor_nonneg _ H). lia.
Qed.

End BinMore.

Module RunFacts.
Import Heap Frame.
Section RunFacts.
Context {K : Kernel}.

Lemma bind_ok_inv {A B} (m : M A) (k : A -> M B) h b h' :
  bind m k h = (Ok b, h') -> exists a h1, m h = (Ok a, h1) /\ k a h1 = (Ok b, h').
Proof.
  unfold bind. destruct (m h) as [[a|e] h1]; [|discriminate]. eauto.
Qed.

Lemma bind_run {A B} (m : M A) (k : A -> M B) h a h1 :
  m h = (Ok a, h1) -> bind m k h = k a h1.
Proof. intros E. unfold bind. rewrite E. reflexivity. Qed.

Lemma safe_run {A} n (m : M A) h r h1 :
  safe n m -> n <= List.length h -> m h = (r, h1) ->
  n <= List.length h1 /\ forall x, x < n -> nth_error h1 x = nth_error h x.
Proof.
  intros Hs Hn E. destruct (Hs h Hn) as [L F]. rewrite E in L, F. simpl in *.
  split; [lia | exact F].
Qed.

End RunFacts.
End RunFacts.

Module FenMore.
Import Heap Heap.Notations Frame FrameFacts Data DataMore Fenestration RunFacts TowerRun.
Local Open Scope Q_scope.
Section FenMore.
Context {K : Kernel}.

Lemma cfp_info panel shape s pid h r info h' :
  create_fenestrated_panel panel shape s pid h = (Ok (r, info), h') ->
  id info = pid /\ opening_scale info == s.
Proof.
  unfold create_fenestrated_panel. intros H.
  destruct (Qeq_bool s 0) eqn:Es.
  - apply Qeq_bool_iff in Es.
    repeat (let a := fresh "a" in let h1 := fresh "h" in let E := fresh "E" in
            apply bind_ok_inv in H; destruct H as [a [h1 [E H]]]).
    unfold ret in H. injection H as <- <- <-. simpl. split; [reflexivity|].
    symmetry. exact Es.
  - repeat (let a := fresh "a" in let h1 := fresh "h" in let E := fresh "E" in
            apply bind_ok_inv in H; destruct H as [a [h1 [E H]]]).
    unfold ret in H. injection H as <- <- <-. simpl. split; reflexivity.
Qed.

End FenMore.
End FenMore.

Module LoopMore.
Import Heap Heap.Notations Frame FrameFacts Data DataMore Fenestration RunFacts FenMore.
Section LoopMore.
Context {K : Kernel}.

Lemma fenestrate_loop_ok i panels ids scales shape cats data normalized h fps infos h' :
  fenestrate_loop i panels ids scales shape cats data normalized h = (Ok (fps, infos), h') ->
  List.length fps = List.length infos /\
  List.length infos = Nat.min (List.length panels) (Nat.min (List.length ids) (List.length scales)) /\
  forall k info, nth_error infos k = Some info ->
    nth_error ids k = Some (id info) /\
    (exists s, nth_error scales k = Some s /\ (opening_scale info == s)%Q) /\
    category info = nth_error cats (i + k) /\
    data_value info = nth_error data (i + k) /\
    exists nv, py_getitem normalized (i + k) = Ok nv /\ normalized_value info = Some nv.
Proof.
  revert i ids scales h fps infos h'. induction panels as [|p panels IH];
    intros i ids scales h fps infos h' H; simpl in H.
  - injection H as <- <- _. simpl. split; [reflexivity|split; [reflexivity|]].
    intros k info Hk. destruct k; discriminate.
  - destruct ids as [|pid ids]; [injection H as <- <- _; simpl; split; [reflexivity|split;
      [reflexivity | intros [|k] ? ?; discriminate]]|].
    destruct scales as [|s scales]; [injection H as <- <- _; simpl; split; [reflexivity|split;
      [lia | intros [|k] ? ?; discriminate]]|].
    apply bind_ok_inv in H. destruct H as [[fp info0] [h1 [E1 H]]].
    destruct (cfp_info _ _ _ _ _ _ _ _ E1) as [Hid Hsc].
    apply bind_ok_inv in H. destruct H as [c [h2 [E2 H]]].
    apply bind_ok_inv in H. destruct H as [dv [h3 [E3 H]]].
    apply bind_ok_inv in H. destruct H as [nv [h4 [E4 H]]].
    apply bind_ok_inv in H. destruct H as [[fps' infos'] [h5 [E5 H]]].
    unfold ret in H. injection H as <- <- ->. simpl.
    unfold lift in E2, E3, E4.
    destruct (IH (S i) ids scales h4 fps' infos' _ E5) as [L1 [L2 F]].
    split; [simpl; lia|]. split; [simpl; lia|].
    intros [|k] info Hk; simpl in Hk.
    + injection Hk as <-. simpl. rewrite Nat.add_0_r.
      destruct (nth_error cats i) eqn:C; [|discriminate]. injection E2 as <- _.
      destruct (nth_error data i) eqn:D; [|discriminate]. injection E3 as <- _.
      injection E4 as E4 _.
      split; [rewrite Hid; reflexivity|]. split; [exists s; split; [reflexivity | exact Hsc]|].
      split; [reflexivity|]. split; [reflexivity|]. exists nv. split; [exact E4 | reflexivity].
    + rewrite <- Nat.add_succ_comm. exact (F k info Hk).
Qed.

End LoopMore.
End LoopMore.

Module PipelineMore.
Import Heap Heap.Notations Frame FrameFacts Data DataFacts DataMore BinMore Fenestration
       RunFacts FenMore LoopMore.
Section PipelineMore.
Context {K : Kernel}.
Local Open Scope Q_scope.

Lemma all_equal_or_spread (d : Q) (t : list Q) :
  Forall (fun x => x == d) (d :: t) \/
  exists x y, In x (d :: t) /\ In y (d :: t) /\ ~ x == y.
Proof.
  induction t as [|x t IH].
  - left. constructor; [reflexivity | constructor].
  - destruct (Qeq_dec x d) as [Ex|Ex].
    + destruct IH as [IH|[a [b [Ha [Hb Hab]]]]].
      * left. inversion IH; subst. constructor; [exact H1|]. constructor; [exact Ex | exact H2].
      * right. exists a, b. split; [|split; [|exact Hab]].
        -- destruct Ha as [Ha|Ha]; [left; exact Ha | right; right; exact Ha].
        -- destruct Hb as [Hb|Hb]; [left; exact Hb | right; right; exact Hb].
    + right. exists x, d. split; [right; left; reflexivity|]. split; [left; reflexivity|].
      exact Ex.
Qed.

Lemma scales_of_floats (g : Q -> Q) (l : list Q) mn mx inv :
  mapR (fun norm => match py_num norm with
                    | Err e => Err e
                    | Ok n => Ok (calculate_opening_scale n mn mx inv)
                    end) (map (fun v => PFloat (g v)) l)
  = Ok (map (fun v => calculate_opening_scale (g v) mn mx inv) l).
Proof. induction l as [|v l IH]; simpl; [reflexivity|]. rewrite IH. reflexivity. Qed.

(** A successful run of [adaptive_fenestration]: the inputs are aligned,
    the data spread, and the categories and scale factors are the binned
    and scaled normalized values. *)
Lemma adaptive_fenestration_ok panels ids data shape mn mx k inv h fps infos cats scales h' :
  adaptive_fenestration panels ids data shape mn mx k inv h
  = (Ok (fps, infos, cats, scales), h') ->
  List.length panels = List.length data /\ List.length panels = List.length ids /\
  exists dmin dmax, dmin < dmax /\ Forall (fun x => dmin <= x <= dmax) data /\
    cats = map (fun v => Z.min (Qfloor ((v - dmin) / (dmax - dmin) * inject_Z k)) (k - 1))
               data /\
    scales = map (fun v => calculate_opening_scale ((v - dmin) / (dmax - dmin)) mn mx inv)
                 data /\
    exists h1, fenestrate_loop 0 panels ids scales shape cats data
                 (PList (map (fun v => PFloat ((v - dmin) / (dmax - dmin))) data)) h1
               = (Ok (fps, infos), h').
Proof.
  unfold adaptive_fenestration. intros H.
  destruct (Nat.eqb (List.length panels) (List.length data)) eqn:L1; [|discriminate].
  destruct (Nat.eqb (List.length panels) (List.length ids)) eqn:L2; [|discriminate].
  apply Nat.eqb_eq in L1, L2. simpl in H. split; [exact L1|]. split; [exact L2|].
  apply bind_ok_inv in H. destruct H as [nv [h1 [E1 H]]].
  apply bind_ok_inv in H. destruct H as [cs [h2 [E2 H]]].
  apply bind_ok_inv in H. destruct H as [ns [h3 [E3 H]]].
  apply bind_ok_inv in H. destruct H as [ss [h4 [E4 H]]].
  apply bind_ok_inv in H. destruct H as [[fps' infos'] [h5 [E5 H]]].
  unfold ret in H. injection H as <- <- <- <- <-.
  cbv [lift] in E1, E2, E3, E4. injection E1 as E1 <-. injection E2 as E2 <-.
  injection E3 as E3 <-. injection E4 as E4 <-.
  destruct data as [|d t]; [discriminate|].
  destruct (all_equal_or_spread d t) as [Hc|Hs];
    remember (d :: t) as data eqn:Ed.
  - rewrite (normalize_data_constant data d ltac:(rewrite Ed; intros C; discriminate C) Hc) in E1.
    injection E1 as <-. rewrite Ed in E2. simpl in E2. discriminate.
  - destruct (normalize_data_spread _ Hs) as [dmin [dmax [Hlt [_ [_ [Hb En]]]]]].
    rewrite En in E1. injection E1 as <-.
    assert (Hf : Forall (fun v => 0 <= (v - dmin) / (dmax - dmin) <= 1) data).
    { rewrite Forall_forall in Hb |- *. intros v Hv.
      apply normalize_map_bounds; auto. }
    pose proof (bin_floats (fun v => (v - dmin) / (dmax - dmin)) _ k Hf) as B.
    cbv beta in B. rewrite B in E2.
    injection E2 as <-. simpl in E3. injection E3 as <-.
    pose proof (scales_of_floats (fun v => (v - dmin) / (dmax - dmin)) data mn mx inv)
      as S. cbv beta in S. rewrite S in E4.
    injection E4 as <-.
    exists dmin, dmax. split; [exact Hlt|]. split; [exact Hb|].
    split; [reflexivity|]. split; [reflexivity|]. eexists. exact E5.
Qed.

End PipelineMore.
End PipelineMore.

Module PanelRun.
Import Heap Heap.Notations Frame FrameFacts Data DataMore Fenestration RunFacts TowerRun.
Section PanelRun.
Context {K : Kernel}.

Lemma safe_keep {A} n (m : M A) h r :
  safe n m -> r < n -> n <= List.length h -> nth_error (snd (m h)) r = nth_error h r.
Proof. intros Hs Hr Hn. exact (proj2 (Hs h Hn) r Hr). Qed.

Lemma transform_in_place_last (h : heap) g x :
  transform_in_place (List.length h) x (List.app h [g])
  = (Ok tt, List.app h [transform x g]).
Proof.
  unfold transform_in_place. rewrite nth_error_app2, Nat.sub_diag by lia. simpl.
  rewrite set_nth_last. reflexivity.
Qed.

(** The opening curve placed on the panel: the template's copy, scaled
    about the world origin, then moved onto the panel's mid frame. *)
Definition placed_opening (f : Plane) (s : Q) (tmpl : Geom) : Geom :=
  transform (PlaneToPlane_WorldXY f) (transform (Scale_WorldXY (Q2R s) (Q2R s) 1) tmpl).

Ltac run_prefix Hs Hg Hf Ht :=
  unfold create_fenestrated_panel;
  replace (Qeq_bool _ 0) with false
    by (symmetry; apply not_true_iff_false; rewrite Qeq_bool_iff; exact Hs);
  erewrite (bind_run (load _)); [|unfold load; rewrite Hg; reflexivity]; cbv beta;
  erewrite bind_run; [|rewrite Hf; reflexivity]; cbv beta;
  erewrite (bind_run (load _)); [|unfold load; rewrite Ht; reflexivity]; cbv beta;
  erewrite (bind_run (alloc _)); [|reflexivity]; cbv beta;
  erewrite (bind_run (transform_in_place _ _)); [|apply transform_in_place_last]; cbv beta;
  erewrite (bind_run (transform_in_place _ _)); [|apply transform_in_place_last]; cbv beta.

Lemma cfp_opening_curve panel shape s pid (h : heap) g f tmpl :
  ~ (s == 0)%Q -> nth_error h panel = Some g ->
  frame_at g (Mid (domain g 0)) (Mid (domain g 1)) = Some f ->
  nth_error h shape = Some tmpl ->
  nth_error (snd (create_fenestrated_panel panel shape s pid h)) (List.length h)
  = Some (placed_opening f s tmpl).
Proof.
  intros Hs Hg Hf Ht. run_prefix Hs Hg Hf Ht.
  rewrite safe_keep with (n := S (List.length h)).
  - rewrite nth_error_app2, Nat.sub_diag by lia. reflexivity.
  - unfold area_of. safe_auto.
  - lia.
  - rewrite length_app. simpl. lia.
Qed.

Ltac safe_step n N E N' F :=
  match type of E with
  | ?m _ = _ =>
    let S := fresh "S" in
    assert (S : safe n m) by (unfold area_of; safe_auto);
    destruct (safe_run n _ _ _ _ S N E) as [N' F]; clear S
  end.

Lemma cfp_metrics panel shape s pid (h : heap) g f tmpl r info h' :
  ~ (s == 0)%Q -> nth_error h panel = Some g ->
  frame_at g (Mid (domain g 0)) (Mid (domain g 1)) = Some f ->
  nth_error h shape = Some tmpl ->
  create_fenestrated_panel panel shape s pid h = (Ok (r, info), h') ->
  id info = pid /\ opening_scale info = s /\
  area g = Some (panel_area info) /\
  ((0 < s)%Q -> area (placed_opening f s tmpl) = Some (opening_area info)) /\
  ((s < 0)%Q -> opening_area info = 0%Q) /\
  ((0 < panel_area info)%Q ->
     opening_percent info = (opening_area info / panel_area info * 100)%Q) /\
  ((panel_area info <= 0)%Q -> opening_percent info = 0%Q).
Proof.
  intros Hs Hg Hf Ht. run_prefix Hs Hg Hf Ht. intros H.
  set (c := placed_opening f s tmpl).
  change (transform (PlaneToPlane_WorldXY f)
            (transform (Scale_WorldXY (Q2R s) (Q2R s) 1) tmpl)) with c in H.
  assert (Hlt : panel < List.length h) by (apply nth_error_Some; congruence).
  set (n := S (List.length h)).
  assert (H0 : n <= List.length (List.app h [c])) by (unfold n; rewrite length_app; simpl; lia).
  assert (Hc0 : nth_error (List.app h [c]) (List.length h) = Some c)
    by (rewrite nth_error_app2, Nat.sub_diag by lia; reflexivity).
  assert (Hg0 : nth_error (List.app h [c]) panel = Some g)
    by (rewrite nth_error_app1 by exact Hlt; exact Hg).
  apply bind_ok_inv in H. destruct H as [pb [h3 [E1 H]]].
  safe_step n H0 E1 N1 F1.
  apply bind_ok_inv in H. destruct H as [oc [h4 [E2 H]]].
  safe_step n N1 E2 N2 F2.
  apply bind_ok_inv in H. destruct H as [rp [h5 [E3 H]]].
  safe_step n N2 E3 N3 F3.
  apply bind_ok_inv in H. destruct H as [oa [h6 [E4 H]]].
  safe_step n N3 E4 N4 F4.
  apply bind_ok_inv in H. destruct H as [pg' [h7 [E5 H]]].
  apply bind_ok_inv in H. destruct H as [pa [h8 [E6 H]]].
  unfold ret in H. injection H as <- <- _. cbn [id opening_scale panel_area opening_area
    opening_percent].
  assert (Hc5 : nth_error h5 (List.length h) = Some c)
    by (rewrite F3, F2, F1 by (unfold n; lia); exact Hc0).
  assert (Hg6 : nth_error h6 panel = Some g)
    by (rewrite F4, F3, F2, F1 by (unfold n; lia); exact Hg0).
  unfold load in E5. rewrite Hg6 in E5. injection E5 as <- <-.
  unfold area_of in E6. destruct (area g) as [a|]; [|discriminate].
  unfold ret in E6. injection E6 as <- _.
  split; [reflexivity|]. split; [reflexivity|]. split; [reflexivity|].
  split; [|split; [|split]].
  - intros Hpos. apply Qlt_bool_true in Hpos. rewrite Hpos in E4.
    apply bind_ok_inv in E4. destruct E4 as [oc' [h6' [L E4]]].
    unfold load in L. rewrite Hc5 in L. injection L as <- <-.
    unfold area_of in E4. fold c. destruct (area c) as [a'|]; [|discriminate].
    unfold ret in E4. injection E4 as <- _. reflexivity.
  - intros Hneg. destruct (Qlt_bool 0 s) eqn:Q0.
    + apply Qlt_bool_true in Q0. lra.
    + unfold ret in E4. injection E4 as <- _. reflexivity.
  - intros Hpos. apply Qlt_bool_true in Hpos. rewrite Hpos. reflexivity.
  - intros Hneg. destruct (Qlt_bool 0 a) eqn:Q0; [|reflexivity].
    apply Qlt_bool_true in Q0. lra.
Qed.

End PanelRun.
End PanelRun.

Module GridMore.
Import Panelizer Panelize.
Section GridMore.
Context {K : Kernel}.
Local Open Scope R_scope.

Lemma nth_params (dom : R * R) (n : Z) (i : nat) :
  (i <= Z.to_nat n)%nat ->
  nth i (params dom n) 0 = ParameterAt dom (INR i / IZR n).
Proof.
  intros Hi. unfold params.
  rewrite nth_indep with (d' := ParameterAt dom (INR 0 / IZR n))
    by (rewrite length_map, length_seq; lia).
  rewrite (map_nth (fun i : nat => ParameterAt dom (INR i / IZR n)) (seq 0 (S (Z.to_nat n)))
             0%nat i).
  rewrite seq_nth by lia. reflexivity.
Qed.

Lemma params_grid (dom : R * R) (n : Z) :
  (0 < n)%Z ->
  List.length (params dom n) = S (Z.to_nat n) /\
  nth 0 (params dom n) 0 = fst dom /\
  nth (Z.to_nat n) (params dom n) 0 = snd dom /\
  forall i, (i <= Z.to_nat n)%nat ->
    nth i (params dom n) 0 = fst dom + INR i / IZR n * (snd dom - fst dom).
Proof.
  intros Hn.
  assert (Hn0 : IZR n <> 0) by (apply not_0_IZR; lia).
  split; [unfold params; rewrite length_map, length_seq; reflexivity|].
  split; [|split].
  - rewrite nth_params by lia. unfold ParameterAt. simpl. field. exact Hn0.
  - rewrite nth_params by lia. unfold ParameterAt.
    rewrite INR_IZR_INZ, Z2Nat.id by lia. field. exact Hn0.
  - intros i Hi. rewrite nth_params by exact Hi. unfold ParameterAt. ring.
Qed.

End GridMore.
End GridMore.

Module TowerMore.
Import Heap Heap.Notations Tower TowerSpec TowerRun RunFacts.
Section TowerMore.
Context {K : Kernel}.
Local Open Scope R_scope.

Lemma floor_transform_zero axis fh rot p :
  apply (floor_transform axis fh rot 0) p = p.
Proof.
  unfold floor_transform. cbn [Z.of_nat Z.mul Z.eqb].
  assert (Hz : Q2R (inject_Z 0 * fh) = 0) by (destruct fh; unfold Q2R; simpl; ring).
  rewrite Hz. destruct p as [x y z].
  unfold apply, mul, Identity, Translation. simpl. f_equal; ring.
Qed.

Lemma floor_transform_succ axis fh rot i p :
  apply (floor_transform axis fh rot (S i)) p
  = rotate_about_z (angle_rad rot)
      (mkPoint (px axis) (py axis) (Q2R (inject_Z (Z.of_nat (S i)) * fh)))
      (translate_z (Q2R fh) (apply (floor_transform axis fh rot i) p)).
Proof.
  rewrite !floor_transform_placement. unfold floor_placement.
  assert (Hz : Q2R (inject_Z (Z.of_nat (S i)) * fh)
               = Q2R (inject_Z (Z.of_nat i) * fh) + Q2R fh).
  { rewrite <- Q2R_plus. apply Qeq_eqR.
    rewrite Nat2Z.inj_succ, <- Z.add_1_r, inject_Z_plus. simpl. ring. }
  assert (Ha : angle_rad (Z.of_nat (S i) * rot)
               = angle_rad (Z.of_nat i * rot) + angle_rad rot).
  { unfold angle_rad. rewrite Nat2Z.inj_succ, Z.mul_succ_l, plus_IZR, mult_IZR. ring. }
  rewrite Hz, Ha. destruct p as [x y z].
  unfold rotate_about_z, translate_z. simpl. rewrite cos_plus, sin_plus.
  f_equal; ring.
Qed.

End TowerMore.
End TowerMore.

(** ** Further properties of the code *)

Section DataProperties.
Import Data DataFacts DataMore BinMore.
Local Open Scope Q_scope.

(** X1: for a normalized value in [[0, 1]] and [min_scale <= max_scale],
    [calculate_opening_scale] lies between [min_scale] and [max_scale],
    inverted or not. *)
Theorem calculate_opening_scale_range (normalized_value min_scale max_scale : Q)
    (invert : bool) :
  0 <= normalized_value <= 1 -> min_scale <= max_scale ->
  min_scale <= calculate_opening_scale normalized_value min_scale max_scale invert
  <= max_scale.
Proof. apply opening_scale_range. Qed.

(** X2: without inversion the value 0 gives [min_scale] and 1 gives
    [max_scale]; with inversion the other way round; and the inverted
    scale is the mirror image [min_scale + max_scale - s] of the plain one. *)
Theorem calculate_opening_scale_ends_and_mirror (n min_scale max_scale : Q) :
  calculate_opening_scale 0 min_scale max_scale false == min_scale /\
  calculate_opening_scale 1 min_scale max_scale false == max_scale /\
  calculate_opening_scale 0 min_scale max_scale true == max_scale /\
  calculate_opening_scale 1 min_scale max_scale true == min_scale /\
  calculate_opening_scale n min_scale max_scale true
  == min_scale + max_scale - calculate_opening_scale n min_scale max_scale false.
Proof. unfold calculate_opening_scale. repeat split; ring. Qed.

(** X3: for [min_scale <= max_scale], a larger normalized value gives a
    larger or equal scale without inversion and a smaller or equal one with
    inversion. *)
Theorem calculate_opening_scale_monotone (n1 n2 min_scale max_scale : Q) :
  n1 <= n2 -> min_scale <= max_scale ->
  calculate_opening_scale n1 min_scale max_scale false
  <= calculate_opening_scale n2 min_scale max_scale false /\
  calculate_opening_scale n2 min_scale max_scale true
  <= calculate_opening_scale n1 min_scale max_scale true.
Proof. apply opening_scale_mono. Qed.

(** X4: on data holding two different values, [normalize_data] returns a
    list with one float per value, each in [[0, 1]], in the order of the
    data values; the least value maps to 0 and the greatest to 1. *)
Theorem normalize_data_min_max (data_values : list Q) :
  (exists x y, In x data_values /\ In y data_values /\ ~ x == y) ->
  exists f : Q -> Q,
    normalize_data data_values = Ok (PList (map (fun v => PFloat (f v)) data_values)) /\
    (forall v, In v data_values -> 0 <= f v <= 1) /\
    (forall v w, In v data_values -> In w data_values -> v <= w -> f v <= f w) /\
    (exists v, In v data_values /\ f v == 0) /\
    (exists w, In w data_values /\ f w == 1).
Proof.
  intros Hs. destruct (normalize_data_spread _ Hs) as [mn [mx [Hlt [Imn [Imx [Hb En]]]]]].
  rewrite Forall_forall in Hb.
  exists (fun v => (v - mn) / (mx - mn)). split; [exact En|]. split; [|split; [|split]].
  - intros v Hv. apply normalize_map_bounds; auto.
  - intros v w _ _ Hvw. apply normalize_map_mono; auto.
  - exists mn. split; [exact Imn | apply (normalize_map_ends mn mx Hlt)].
  - exists mx. split; [exact Imx | apply (normalize_map_ends mn mx Hlt)].
Qed.

(** X5: binning the normalized data into [num_categories > 0] categories
    (the first two steps of the pipeline) succeeds on data holding two
    different values; it gives one category per value, each in
    [[0, num_categories)], and a larger data value never gets a smaller
    category. *)
Theorem bin_normalized_data (data_values : list Q) (num_categories : Z) :
  (0 < num_categories)%Z ->
  (exists x y, In x data_values /\ In y data_values /\ ~ x == y) ->
  exists categories,
    match normalize_data data_values with
    | Ok normalized => bin_into_categories normalized num_categories
    | Err e => Err e
    end = Ok categories /\
    List.length categories = List.length data_values /\
    Forall (fun c => 0 <= c < num_categories)%Z categories /\
    forall i j vi vj ci cj,
      nth_error data_values i = Some vi -> nth_error data_values j = Some vj -> vi <= vj ->
      nth_error categories i = Some ci -> nth_error categories j = Some cj -> (ci <= cj)%Z.
Proof.
  intros Hk Hs. destruct (normalize_data_spread _ Hs) as [mn [mx [Hlt [_ [_ [Hb En]]]]]].
  set (f := fun v => (v - mn) / (mx - mn)).
  assert (Hf : Forall (fun v => 0 <= f v <= 1) data_values).
  { rewrite Forall_forall in Hb |- *. intros v Hv. apply normalize_map_bounds; auto. }
  pose proof (bin_floats f data_values num_categories Hf) as B.
  exists (map (fun v => Z.min (Qfloor (f v * inject_Z num_categories)) (num_categories - 1))
              data_values).
  split; [rewrite En; exact B|]. split; [apply length_map|]. split.
  - rewrite Forall_map. rewrite Forall_forall in Hf |- *. intros v Hv.
    apply category_bounds; [exact Hk | apply Hf; exact Hv].
  - intros i j vi vj ci cj Hi Hj Hvw Ci Cj.
    rewrite nth_error_map, Hi in Ci. rewrite nth_error_map, Hj in Cj.
    cbn [option_map] in Ci, Cj.
    replace ci with (Z.min (Qfloor (f vi * inject_Z num_categories)) (num_categories - 1))
      by congruence.
    replace cj with (Z.min (Qfloor (f vj * inject_Z num_categories)) (num_categories - 1))
      by congruence.
    apply category_mono; [lia|].
    apply normalize_map_mono; auto.
Qed.

End DataProperties.

Section FenestrationProperties.
Import Heap Frame FrameFacts Data DataMore BinMore Fenestration RunFacts FenMore LoopMore
       PipelineMore PanelRun.
Context {K : Kernel}.
Local Open Scope Q_scope.

(** X6: with empty inputs, [adaptive_fenestration] raises a ValueError
    ([min()] of an empty sequence, in [normalize_data]), and the store is
    left as it was. *)
Theorem adaptive_fenestration_empty_input (opening_shape : ref)
    (min_opening max_opening : Q) (num_categories : Z) (invert : bool) (h : heap) :
  exists msg,
    adaptive_fenestration [] [] [] opening_shape min_opening max_opening num_categories
                          invert h
    = (Err (ValueError msg), h).
Proof. eexists. reflexivity. Qed.

(** X7: with a nonzero [scale_factor], when the kernel gives no frame at
    the middle of the panel's domain, [create_fenestrated_panel] raises
    [RuntimeError("Failed to get frame for panel <id>")] and creates
    nothing. *)
Theorem create_fenestrated_panel_frame_failure (panel opening_shape : ref)
    (scale_factor : Q) (panel_id : string) (h : heap) (g : Geom) :
  ~ scale_factor == 0 -> nth_error h panel = Some g ->
  frame_at g (Mid (domain g 0)) (Mid (domain g 1)) = None ->
  create_fenestrated_panel panel opening_shape scale_factor panel_id h
  = (Err (RuntimeError ("Failed to get frame for panel " ++ panel_id)), h).
Proof.
  intros Hs Hg Hf. unfold create_fenestrated_panel.
  replace (Qeq_bool scale_factor 0) with false
    by (symmetry; apply not_true_iff_false; rewrite Qeq_bool_iff; exact Hs).
  unfold bind at 1, load. rewrite Hg. unfold bind at 1. rewrite Hf. reflexivity.
Qed.

(** X8: with a nonzero [scale_factor] and a frame [f] at the middle of the
    panel, [create_fenestrated_panel] puts a new opening curve in the
    store, right after the objects that existed, and leaves it there whether
    the call returns or raises: a copy of the template scaled by
    [scale_factor] about the world origin and then moved from the world XY
    plane onto [f]. *)
Theorem create_fenestrated_panel_opening_curve (panel opening_shape : ref)
    (scale_factor : Q) (panel_id : string) (h : heap) (g : Geom) (f : Plane)
    (template : Geom) :
  ~ scale_factor == 0 -> nth_error h panel = Some g ->
  frame_at g (Mid (domain g 0)) (Mid (domain g 1)) = Some f ->
  nth_error h opening_shape = Some template ->
  nth_error (snd (create_fenestrated_panel panel opening_shape scale_factor panel_id h))
            (List.length h)
  = Some (transform (PlaneToPlane_WorldXY f)
            (transform (Scale_WorldXY (Q2R scale_factor) (Q2R scale_factor) 1) template)).
Proof. apply cfp_opening_curve. Qed.

(** X9: when [create_fenestrated_panel] returns with a nonzero
    [scale_factor], its record carries the panel id and the scale factor;
    its panel area is the kernel's area of the panel; its opening area is
    the area of the placed opening curve for a positive scale and 0 for a
    negative one; and its opening percent is
    [opening_area / panel_area * 100] for a positive panel area and 0
    otherwise. *)
Theorem create_fenestrated_panel_metrics (panel opening_shape : ref) (scale_factor : Q)
    (panel_id : string) (h : heap) (g : Geom) (f : Plane) (template : Geom)
    (result_panel : ref)
    (info : FenInfo) (h' : heap) :
  ~ scale_factor == 0 -> nth_error h panel = Some g ->
  frame_at g (Mid (domain g 0)) (Mid (domain g 1)) = Some f ->
  nth_error h opening_shape = Some template ->
  create_fenestrated_panel panel opening_shape scale_factor panel_id h
  = (Ok (result_panel, info), h') ->
  id info = panel_id /\ opening_scale info = scale_factor /\
  area g = Some (panel_area info) /\
  (0 < scale_factor ->
   area (transform (PlaneToPlane_WorldXY f)
           (transform (Scale_WorldXY (Q2R scale_factor) (Q2R scale_factor) 1) template))
   = Some (opening_area info)) /\
  (scale_factor < 0 -> opening_area info = 0) /\
  (0 < panel_area info ->
   opening_percent info = opening_area info / panel_area info * 100) /\
  (panel_area info <= 0 -> opening_percent info = 0).
Proof. apply cfp_metrics. Qed.

(** X10: when [adaptive_fenestration] returns, its four outputs have one
    entry per panel, and the record at index [i] carries the [i]-th panel
    id, the [i]-th category, the [i]-th data value and the [i]-th scale
    factor. *)
Theorem adaptive_fenestration_outputs_aligned (panels : list ref) (ids : list string)
    (data_values : list Q) (opening_shape : ref) (min_opening max_opening : Q)
    (num_categories : Z) (invert : bool) (h : heap) (fenestrated : list ref)
    (infos : list FenInfo) (categories : list Z) (scale_factors : list Q) (h' : heap) :
  adaptive_fenestration panels ids data_values opening_shape min_opening max_opening
                        num_categories invert h
  = (Ok (fenestrated, infos, categories, scale_factors), h') ->
  List.length fenestrated = List.length panels /\
  List.length infos = List.length panels /\
  List.length categories = List.length panels /\
  List.length scale_factors = List.length panels /\
  forall i info, nth_error infos i = Some info ->
    nth_error ids i = Some (id info) /\
    category info = nth_error categories i /\
    data_value info = nth_error data_values i /\
    exists s, nth_error scale_factors i = Some s /\ opening_scale info == s.
Proof.
  intros H. destruct (adaptive_fenestration_ok _ _ _ _ _ _ _ _ _ _ _ _ _ _ H)
    as [L1 [L2 [dmin [dmax [_ [_ [Hc [Hs [h1 E]]]]]]]]].
  destruct (fenestrate_loop_ok _ _ _ _ _ _ _ _ _ _ _ _ E) as [F1 [F2 F]].
  rewrite Hs, length_map in F2.
  split; [lia|]. split; [lia|]. split; [rewrite Hc, length_map; lia|].
  split; [rewrite Hs, length_map; lia|].
  intros i info Hi. destruct (F i info Hi) as [I1 [I2 [I3 [I4 _]]]].
  split; [exact I1|]. split; [exact I3|]. split; [exact I4|]. exact I2.
Qed.

(** X11: when [adaptive_fenestration] returns, every category lies in
    [[0, num_categories)] for a positive [num_categories], and every scale
    factor lies between [min_opening] and [max_opening] when
    [min_opening <= max_opening]. *)
Theorem adaptive_fenestration_outputs_in_range (panels : list ref) (ids : list string)
    (data_values : list Q) (opening_shape : ref) (min_opening max_opening : Q)
    (num_categories : Z) (invert : bool) (h : heap) (fenestrated : list ref)
    (infos : list FenInfo) (categories : list Z) (scale_factors : list Q) (h' : heap) :
  adaptive_fenestration panels ids data_values opening_shape min_opening max_opening
                        num_categories invert h
  = (Ok (fenestrated, infos, categories, scale_factors), h') ->
  ((0 < num_categories)%Z -> Forall (fun c => 0 <= c < num_categories)%Z categories) /\
  (min_opening <= max_opening ->
   Forall (fun s => min_opening <= s <= max_opening) scale_factors).
Proof.
  intros H. destruct (adaptive_fenestration_ok _ _ _ _ _ _ _ _ _ _ _ _ _ _ H)
    as [_ [_ [dmin [dmax [Hlt [Hb [Hc [Hs _]]]]]]]].
  rewrite Forall_forall in Hb. split.
  - intros Hk. rewrite Hc, Forall_map, Forall_forall. intros v Hv.
    apply category_bounds; [exact Hk|]. apply normalize_map_bounds; auto.
  - intros Hm. rewrite Hs, Forall_map, Forall_forall. intros v Hv.
    apply opening_scale_range; [|exact Hm]. apply normalize_map_bounds; auto.
Qed.

(** X12: when [adaptive_fenestration] returns, a larger data value never
    gets a smaller category (for [num_categories >= 0]), and, for
    [min_opening <= max_opening], never a smaller scale factor without
    inversion and never a larger one with inversion. *)
Theorem adaptive_fenestration_outputs_ordered (panels : list ref) (ids : list string)
    (data_values : list Q) (opening_shape : ref) (min_opening max_opening : Q)
    (num_categories : Z) (invert : bool) (h : heap) (fenestrated : list ref)
    (infos : list FenInfo) (categories : list Z) (scale_factors : list Q) (h' : heap) :
  adaptive_fenestration panels ids data_values opening_shape min_opening max_opening
                        num_categories invert h
  = (Ok (fenestrated, infos, categories, scale_factors), h') ->
  forall i j vi vj,
    nth_error data_values i = Some vi -> nth_error data_values j = Some vj -> vi <= vj ->
    exists ci cj si sj,
      nth_error categories i = Some ci /\ nth_error categories j = Some cj /\
      nth_error scale_factors i = Some si /\ nth_error scale_factors j = Some sj /\
      ((0 <= num_categories)%Z -> (ci <= cj)%Z) /\
      (min_opening <= max_opening -> if invert then sj <= si else si <= sj).
Proof.
  intros H i j vi vj Hi Hj Hvw.
  destruct (adaptive_fenestration_ok _ _ _ _ _ _ _ _ _ _ _ _ _ _ H)
    as [_ [_ [dmin [dmax [Hlt [_ [Hc [Hs _]]]]]]]].
  subst categories scale_factors.
  rewrite !nth_error_map, Hi, Hj. do 4 eexists.
  split; [reflexivity|]. split; [reflexivity|]. split; [reflexivity|].
  split; [reflexivity|]. split.
  - intros Hk. apply category_mono; [exact Hk|]. apply normalize_map_mono; auto.
  - intros Hm. pose proof (normalize_map_mono dmin dmax vi vj Hlt Hvw) as Hn.
    destruct (opening_scale_mono _ _ _ _ Hn Hm) as [A B].
    destruct invert; assumption.
Qed.

End FenestrationProperties.

Section PanelizeProperties.
Import Panelizer Panelize GridMore.
Context {K : Kernel}.

(** X13: [panelize_surface] checks its input first: [None] raises the
    ValueError about the missing surface whatever the counts, and a
    non-positive [u_count] or [v_count] raises the ValueError
    ["U and V counts must be > 0."] before the input's type is looked at. *)
Theorem panelize_surface_input_checks (surface_input : Geom) (u_count v_count : Z)
    (prefix : string) :
  panelize_surface None u_count v_count prefix
  = Err (ValueError "Surface input is None. Connect a Surface (or single-face Brep).") /\
  ((u_count <= 0 \/ v_count <= 0)%Z ->
   panelize_surface (Some surface_input) u_count v_count prefix
   = Err (ValueError "U and V counts must be > 0.")).
Proof.
  split; [reflexivity|]. intros Hc. simpl.
  replace ((u_count <=? 0)%Z || (v_count <=? 0)%Z) with true; [reflexivity|].
  destruct Hc as [Hc|Hc]; apply Z.leb_le in Hc; rewrite Hc;
    [reflexivity | symmetry; apply orb_true_r].
Qed.

(** X14: with positive counts, an input that is neither a Surface nor a
    BrepFace raises the ValueError ["Brep has no faces."] when it is a Brep
    without faces, and a TypeError (unsupported type) when it is no Brep
    either. *)
Theorem panelize_surface_coercion_errors (surface_input : Geom) (u_count v_count : Z)
    (prefix : string) :
  (0 < u_count)%Z -> (0 < v_count)%Z ->
  is_surface surface_input = false -> is_brep_face surface_input = false ->
  (is_brep surface_input = true -> brep_faces surface_input = [] ->
   panelize_surface (Some surface_input) u_count v_count prefix
   = Err (ValueError "Brep has no faces.")) /\
  (is_brep surface_input = false ->
   exists msg, panelize_surface (Some surface_input) u_count v_count prefix
               = Err (TypeError msg)).
Proof.
  intros Hu Hv Hs Hf. simpl.
  replace ((u_count <=? 0)%Z || (v_count <=? 0)%Z) with false
    by (symmetry; apply orb_false_iff; split; apply Z.leb_gt; lia).
  unfold coerce_surface. rewrite Hs, Hf. split.
  - intros Hb Hn. rewrite Hb, Hn. reflexivity.
  - intros Hb. rewrite Hb. eexists. reflexivity.
Qed.

(** X15: with any counts, a Brep (that is no Surface and no BrepFace) is
    panelized exactly as the underlying surface of its first face, when that
    is a Surface: the other faces are ignored. *)
Theorem panelize_surface_brep_first_face (brep f : Geom) (fs : list Geom)
    (u_count v_count : Z) (prefix : string) :
  is_surface brep = false -> is_brep_face brep = false -> is_brep brep = true ->
  brep_faces brep = f :: fs -> is_surface (underlying_surface f) = true ->
  panelize_surface (Some brep) u_count v_count prefix
  = panelize_surface (Some (underlying_surface f)) u_count v_count prefix.
Proof.
  intros Hs Hf Hb Hfs Hu. simpl.
  destruct ((u_count <=? 0)%Z || (v_count <=? 0)%Z); [reflexivity|].
  unfold coerce_surface. rewrite Hs, Hf, Hb, Hfs, Hu. reflexivity.
Qed.

(** X16: with positive counts and an input coerced to a surface, when the
    kernel builds no patch from four corners, [panelize_surface] raises
    [RuntimeError("Failed to create panel at (u=1, v=1).")]: the first cell
    of the loop fails. *)
Theorem panelize_surface_patch_failure (surface_input srf : Geom) (u_count v_count : Z)
    (prefix : string) :
  (forall p00 p10 p11 p01, create_from_corners p00 p10 p11 p01 = None) ->
  (0 < u_count)%Z -> (0 < v_count)%Z -> coerce_surface surface_input = Ok srf ->
  panelize_surface (Some surface_input) u_count v_count prefix
  = Err (RuntimeError "Failed to create panel at (u=1, v=1).").
Proof.
  intros Hp Hu Hv Hc. simpl.
  replace ((u_count <=? 0)%Z || (v_count <=? 0)%Z) with false
    by (symmetry; apply orb_false_iff; split; apply Z.leb_gt; lia).
  rewrite Hc. unfold generate_panel_ids.
  replace ((u_count <=? 0)%Z || (v_count <=? 0)%Z) with false
    by (symmetry; apply orb_false_iff; split; apply Z.leb_gt; lia).
  unfold cells.
  replace (Z.to_nat v_count) with (S (Z.to_nat v_count - 1)) by lia.
  replace (Z.to_nat u_count) with (S (Z.to_nat u_count - 1)) by lia.
  cbn [seq flat_map map List.app mapR make_panel]. rewrite Hp. reflexivity.
Qed.

(** X17: for [n > 0], the [n + 1] parameters of [panelize_surface] along a
    domain [(T0, T1)] start at [T0], end at [T1] and are evenly spaced:
    parameter [i] is [T0 + i / n * (T1 - T0)]. *)
Theorem panelize_params_grid (dom : R * R) (n : Z) :
  (0 < n)%Z ->
  List.length (params dom n) = S (Z.to_nat n) /\
  nth 0 (params dom n) 0%R = fst dom /\
  nth (Z.to_nat n) (params dom n) 0%R = snd dom /\
  forall i, (i <= Z.to_nat n)%nat ->
    nth i (params dom n) 0%R = (fst dom + INR i / IZR n * (snd dom - fst dom))%R.
Proof. apply params_grid. Qed.

End PanelizeProperties.

Section TowerProperties.
Import Heap Heap.Notations Tower TowerSpec TowerRun TowerMore.
Context {K : Kernel}.

(** X18: floor 0 is the base curve in place (its transform moves no
    point), and floor [i + 1] is floor [i] lifted by [floor_height] and then
    turned by [rotation_per_floor] degrees about the vertical axis through
    [axis_point] at the new floor's elevation. *)
Theorem floor_transforms_stack (axis_point : Point3d) (floor_height : Q)
    (rotation_per_floor : Z) :
  (forall p, apply (floor_transform axis_point floor_height rotation_per_floor 0) p = p) /\
  (forall i p,
     apply (floor_transform axis_point floor_height rotation_per_floor (S i)) p
     = rotate_about_z (angle_rad rotation_per_floor)
         (mkPoint (px axis_point) (py axis_point)
                  (Q2R (inject_Z (Z.of_nat (S i)) * floor_height)))
         (translate_z (Q2R floor_height)
            (apply (floor_transform axis_point floor_height rotation_per_floor i) p))).
Proof.
  split; [intros p; apply floor_transform_zero | intros i p; apply floor_transform_succ].
Qed.

(** X19: for a closed base curve, [floor_count >= 2] and
    [floor_height > 0], when the kernel lofts no pair of curves,
    [twist_tower] raises [RuntimeError("Loft failed between floors 1 and 2.")]. *)
Theorem twist_tower_loft_failure (b : ref) (g : Geom) (floor_count : Z) (floor_height : Q)
    (rotation_per_floor : Z) (axis_point : option Point3d) (h : heap) :
  (forall curves, create_from_loft curves = []) ->
  nth_error h b = Some g -> is_closed g = true ->
  (2 <= floor_count)%Z -> (0 < floor_height)%Q ->
  exists h',
    twist_tower (Some b) floor_count floor_height rotation_per_floor axis_point h
    = (Err (RuntimeError "Loft failed between floors 1 and 2."), h').
Proof.
  intros Hl Hg Hc Hfc Hfh. unfold twist_tower, bind at 1, load. rewrite Hg, Hc.
  replace (floor_count <? 2)%Z with false by (symmetry; apply Z.ltb_ge; lia).
  replace (Qle_bool floor_height 0) with false
    by (symmetry; apply not_true_iff_false; rewrite Qle_bool_iff; lra).
  cbn [negb]. unfold bind at 1.
  rewrite build_floors_run with (g := g) by exact Hg.
  set (n := Z.to_nat floor_count).
  replace (Z.to_nat (floor_count - 1)) with (S (n - 2)) by (unfold n; lia).
  replace (List.length (seq 0 n)) with (S (S (n - 2))) by (rewrite length_seq; unfold n; lia).
  set (h1 := List.app h _).
  assert (H1 : nth_error h1 (List.length h) = Some (transform
            (floor_transform (match axis_point with Some p => p | None => bbox_center g end)
               floor_height rotation_per_floor 0) g)).
  { unfold h1. rewrite nth_error_app2, Nat.sub_diag by lia.
    replace n with (S (S (n - 2))) by (unfold n; lia). reflexivity. }
  assert (H2 : nth_error h1 (S (List.length h)) = Some (transform
            (floor_transform (match axis_point with Some p => p | None => bbox_center g end)
               floor_height rotation_per_floor 1) g)).
  { unfold h1. rewrite nth_error_app2 by lia.
    replace (S (List.length h) - List.length h) with 1 by lia.
    replace n with (S (S (n - 2))) by (unfold n; lia). reflexivity. }
  clearbody h1. cbn [seq loft_loop]. unfold bind, index, lift, load. cbn [nth_error].
  cbn [nth_error] in H2. unfold ref in *. rewrite H1, H2, Hl. eexists. reflexivity.
Qed.

End TowerProperties.

(** ** Instances of the further properties on the small kernels *)

Section ExtraWitnesses.
Import Toy Heap Panelizer Panelize Data Fenestration Tower TowerSpec.
Local Open Scope Q_scope.

Lemma calculate_opening_scale_range_witness :
  0 <= calculate_opening_scale (1 # 4) 0 (1 # 2) true <= 1 # 2.
Proof.
  apply (calculate_opening_scale_range (1 # 4) 0 (1 # 2) true);
    [split|]; vm_compute; discriminate.
Defined.

Lemma calculate_opening_scale_monotone_witness :
  calculate_opening_scale (1 # 4) 0 (1 # 2) false
  <= calculate_opening_scale (3 # 4) 0 (1 # 2) false /\
  calculate_opening_scale (3 # 4) 0 (1 # 2) true
  <= calculate_opening_scale (1 # 4) 0 (1 # 2) true.
Proof.
  apply (calculate_opening_scale_monotone (1 # 4) (3 # 4) 0 (1 # 2));
    vm_compute; discriminate.
Defined.

Lemma normalize_data_min_max_witness :
  exists f : Q -> Q,
    normalize_data [1; 3; 2] = Ok (PList (map (fun v => PFloat (f v)) [1; 3; 2])) /\
    (forall v, In v [1; 3; 2] -> 0 <= f v <= 1) /\
    (forall v w, In v [1; 3; 2] -> In w [1; 3; 2] -> v <= w -> f v <= f w) /\
    (exists v, In v [1; 3; 2] /\ f v == 0) /\
    (exists w, In w [1; 3; 2] /\ f w == 1).
Proof.
  apply (normalize_data_min_max [1; 3; 2]).
  exists 1, 3. split; [simpl; auto|]. split; [simpl; auto|].
  vm_compute. discriminate.
Defined.

Lemma bin_normalized_data_witness :
  exists categories,
    match normalize_data [1; 3; 2] with
    | Ok normalized => bin_into_categories normalized 4
    | Err e => Err e
    end = Ok categories /\
    List.length categories = 3%nat /\
    Forall (fun c => 0 <= c < 4)%Z categories /\
    forall i j vi vj ci cj,
      nth_error [1; 3; 2] i = Some vi -> nth_error [1; 3; 2] j = Some vj -> vi <= vj ->
      nth_error categories i = Some ci -> nth_error categories j = Some cj -> (ci <= cj)%Z.
Proof.
  apply (bin_normalized_data [1; 3; 2] 4).
  - lia.
  - exists 1, 3. split; [simpl; auto|]. split; [simpl; auto|].
    vm_compute. discriminate.
Defined.

End ExtraWitnesses.

Section KernelWitnesses.
Import Toy Heap Panelizer Panelize Data Fenestration Tower TowerSpec.

Lemma create_fenestrated_panel_frame_failure_witness :
  @create_fenestrated_panel failing_kernel 0 1 (1 # 2) "P-01-01" [0; 7]
  = (Err (RuntimeError ("Failed to get frame for panel " ++ "P-01-01")%string), [0; 7]).
Proof.
  apply (@create_fenestrated_panel_frame_failure failing_kernel 0 1 (1 # 2) "P-01-01"
           [0; 7] 0).
  - vm_compute. discriminate.
  - reflexivity.
  - reflexivity.
Defined.

Lemma create_fenestrated_panel_opening_curve_witness :
  nth_error (snd (@create_fenestrated_panel toy_kernel 0 1 (1 # 2) "P-01-01" [5; 7])) 2
  = Some (@transform toy_kernel (PlaneToPlane_WorldXY Plane_WorldXY)
            (@transform toy_kernel (Scale_WorldXY (Q2R (1 # 2)) (Q2R (1 # 2)) 1) 7)).
Proof.
  apply (@create_fenestrated_panel_opening_curve toy_kernel 0 1 (1 # 2) "P-01-01" [5; 7]
           5 Plane_WorldXY 7).
  - vm_compute. discriminate.
  - reflexivity.
  - reflexivity.
  - reflexivity.
Defined.

Lemma create_fenestrated_panel_metrics_witness :
  exists result_panel info h',
    @create_fenestrated_panel toy_kernel 0 1 (1 # 2) "P-01-01" [5; 7]
    = (Ok (result_panel, info), h') /\
    id info = "P-01-01"%string /\ opening_scale info = (1 # 2)%Q /\
    @area toy_kernel 5 = Some (panel_area info) /\
    @area toy_kernel 9 = Some (opening_area info) /\
    opening_percent info = (opening_area info / panel_area info * 100)%Q.
Proof.
  destruct (@create_fenestrated_panel toy_kernel 0 1 (1 # 2) "P-01-01" [5; 7])
    as [[[r info]|e] h'] eqn:E; [|vm_compute in E; discriminate].
  destruct (@create_fenestrated_panel_metrics toy_kernel 0 1 (1 # 2) "P-01-01" [5; 7]
              5 Plane_WorldXY 7 r info h' ltac:(vm_compute; discriminate) eq_refl eq_refl
              eq_refl E) as [I1 [I2 [I3 [I4 [_ [I6 _]]]]]].
  exists r, info, h'. split; [reflexivity|]. split; [exact I1|]. split; [exact I2|].
  split; [exact I3|]. split; [exact (I4 ltac:(vm_compute; reflexivity))|].
  apply I6. cbn in I3. injection I3 as I3. rewrite <- I3. vm_compute. reflexivity.
Defined.

Lemma adaptive_fenestration_outputs_aligned_witness :
  exists fenestrated infos categories scale_factors h',
    @adaptive_fenestration toy_kernel [0; 1] ["a"; "b"]%string [1%Q; 3%Q] 2 0 (1 # 2) 4 false
      [5; 6; 7] = (Ok (fenestrated, infos, categories, scale_factors), h') /\
    List.length fenestrated = 2%nat /\ List.length infos = 2%nat /\
    List.length categories = 2%nat /\ List.length scale_factors = 2%nat.
Proof.
  destruct (@adaptive_fenestration toy_kernel [0; 1] ["a"; "b"]%string [1%Q; 3%Q] 2 0 (1 # 2)
              4 false [5; 6; 7]) as [[[[[fps infos] cats] scales]|e] h'] eqn:E;
    [|vm_compute in E; discriminate].
  destruct (@adaptive_fenestration_outputs_aligned toy_kernel [0; 1] ["a"; "b"]%string
              [1%Q; 3%Q] 2 0 (1 # 2) 4 false [5; 6; 7] fps infos cats scales h' E)
    as [L1 [L2 [L3 [L4 _]]]].
  exists fps, infos, cats, scales, h'. split; [reflexivity|]. auto.
Defined.

Lemma adaptive_fenestration_outputs_in_range_witness :
  exists fenestrated infos categories scale_factors h',
    @adaptive_fenestration toy_kernel [0; 1] ["a"; "b"]%string [1%Q; 3%Q] 2 0 (1 # 2) 4 false
      [5; 6; 7] = (Ok (fenestrated, infos, categories, scale_factors), h') /\
    Forall (fun c => 0 <= c < 4)%Z categories /\
    Forall (fun s => 0 <= s <= 1 # 2)%Q scale_factors.
Proof.
  destruct (@adaptive_fenestration toy_kernel [0; 1] ["a"; "b"]%string [1%Q; 3%Q] 2 0 (1 # 2)
              4 false [5; 6; 7]) as [[[[[fps infos] cats] scales]|e] h'] eqn:E;
    [|vm_compute in E; discriminate].
  destruct (@adaptive_fenestration_outputs_in_range toy_kernel [0; 1] ["a"; "b"]%string
              [1%Q; 3%Q] 2 0 (1 # 2) 4 false [5; 6; 7] fps infos cats scales h' E) as [C S].
  exists fps, infos, cats, scales, h'. split; [reflexivity|]. split.
  - apply C. lia.
  - apply S. vm_compute. discriminate.
Defined.

Lemma adaptive_fenestration_outputs_ordered_witness :
  exists fenestrated infos categories scale_factors h',
    @adaptive_fenestration toy_kernel [0; 1] ["a"; "b"]%string [1%Q; 3%Q] 2 0 (1 # 2) 4 false
      [5; 6; 7] = (Ok (fenestrated, infos, categories, scale_factors), h') /\
    exists c0 c1 s0 s1,
      nth_error categories 0 = Some c0 /\ nth_error categories 1 = Some c1 /\
      nth_error scale_factors 0 = Some s0 /\ nth_error scale_factors 1 = Some s1 /\
      (c0 <= c1)%Z /\ (s0 <= s1)%Q.
Proof.
  destruct (@adaptive_fenestration toy_kernel [0; 1] ["a"; "b"]%string [1%Q; 3%Q] 2 0 (1 # 2)
              4 false [5; 6; 7]) as [[[[[fps infos] cats] scales]|e] h'] eqn:E;
    [|vm_compute in E; discriminate].
  destruct (@adaptive_fenestration_outputs_ordered toy_kernel [0; 1] ["a"; "b"]%string
              [1%Q; 3%Q] 2 0 (1 # 2) 4 false [5; 6; 7] fps infos cats scales h' E 0 1 1 3
              eq_refl eq_refl ltac:(vm_compute; discriminate))
    as [c0 [c1 [s0 [s1 [N1 [N2 [N3 [N4 [Oc Os]]]]]]]]].
  exists fps, infos, cats, scales, h'. split; [reflexivity|].
  exists c0, c1, s0, s1. repeat split; auto.
  - apply Oc. lia.
  - apply Os. vm_compute. discriminate.
Defined.

Lemma panelize_surface_input_checks_witness :
  @panelize_surface toy_kernel (Some 0) 0 3 "P" = Err (ValueError "U and V counts must be > 0.").
Proof.
  apply (proj2 (@panelize_surface_input_checks toy_kernel 0 0 3 "P")). left. lia.
Defined.

Lemma panelize_surface_coercion_errors_witness :
  @panelize_surface failing_kernel (Some 2) 2 3 "P" = Err (ValueError "Brep has no faces.") /\
  exists msg, @panelize_surface failing_kernel (Some 5) 2 3 "P" = Err (TypeError msg).
Proof.
  split.
  - apply (proj1 (@panelize_surface_coercion_errors failing_kernel 2 2 3 "P"
                    ltac:(lia) ltac:(lia) eq_refl eq_refl)); reflexivity.
  - apply (proj2 (@panelize_surface_coercion_errors failing_kernel 5 2 3 "P"
                    ltac:(lia) ltac:(lia) eq_refl eq_refl)); reflexivity.
Defined.

Lemma panelize_surface_brep_first_face_witness :
  @panelize_surface failing_kernel (Some 3) 2 3 "P"
  = @panelize_surface failing_kernel (Some 0) 2 3 "P".
Proof.
  apply (@panelize_surface_brep_first_face failing_kernel 3 1 [] 2 3 "P");
    reflexivity.
Defined.

Lemma panelize_surface_patch_failure_witness :
  @panelize_surface failing_kernel (Some 0) 2 3 "P"
  = Err (RuntimeError "Failed to create panel at (u=1, v=1).").
Proof.
  apply (@panelize_surface_patch_failure failing_kernel 0 0 2 3 "P").
  - intros; reflexivity.
  - lia.
  - lia.
  - reflexivity.
Defined.

Lemma panelize_params_grid_witness :
  List.length (params (0%R, 1%R) 4) = 5%nat /\
  nth 0 (params (0%R, 1%R) 4) 0%R = 0%R /\
  nth 4 (params (0%R, 1%R) 4) 0%R = 1%R.
Proof.
  destruct (panelize_params_grid (0%R, 1%R) 4 ltac:(lia)) as [A [B [C _]]].
  split; [exact A|]. split; [exact B | exact C].
Defined.

Lemma twist_tower_loft_failure_witness :
  exists h',
    @twist_tower failing_kernel (Some 0) 3 1 15 None [9]
    = (Err (RuntimeError "Loft failed between floors 1 and 2."), h').
Proof.
  apply (@twist_tower_loft_failure failing_kernel 0 9 3 1 15 None [9]).
  - intros; reflexivity.
  - reflexivity.
  - reflexivity.
  - lia.
  - vm_compute. reflexivity.
Defined.

End KernelWitnesses.
